(** * mcp-server-make: the Make.com API client and its tool dispatchers

    A shallow embedding of [src/make-client.ts] (the API client, found in
    the last part of [src/api/mcp.ts]), of the stdio dispatcher
    [src/src/index.ts] and of the hosted handler at the head of
    [src/api/mcp.ts].

    Modelling choices, all of them visible in the definitions below:

    - TypeScript types are erased at run time, so every argument a
      handler passes to a client method is a JavaScript value that may be
      [undefined]: [jsval := option json], [None] standing for
      [undefined]. The values are those JSON can carry, since the
      arguments of a call and the bodies of the responses are parsed JSON.
    - [String(value)] and a template literal can throw: an object with an
      own [toString] property (never callable in parsed JSON) cannot be
      converted, and the TypeError leaves the client before any request
      is made. [ToString] is therefore partial.
    - Strings are sequences of bytes (their UTF-8 encoding), so only
      well-formed strings are represented. A number is a double, known
      by the text [String] prints for it; from that text follow whether
      it is falsy (0 and NaN) and whether [JSON.stringify] prints it or
      prints null (NaN and the infinities). An HTTP status is an
      integer.
    - [fetch] talks to a [Remote], a function from the request issued to
      what comes back; every request issued is recorded in a trace, so
      that "no remote request" is a statement about the trace.
    - [response.json()] is the platform's JSON parser: a response carries
      the parsed body, or the message of the SyntaxError the parser gives
      when the text is not JSON.
    - The second hosted file kept in [src/api/mcp.ts] registers its tools
      one by one with zod schemas and leaves the lookup by name, the
      validation of arguments and the conversion of errors to the SDK,
      which is not part of the sources; only its registrations and their
      callbacks are modelled, in [ApiMcpZod]. *)

From Stdlib Require Import ZArith NArith String Ascii List.
From stdpp Require Import base option list strings gmap pretty.
Import ListNotations.

Local Open Scope Z_scope.

(** ** JavaScript values *)

(** Every byte of [s] satisfies [p]. *)
Fixpoint string_forall (p : ascii -> bool) (s : string) : bool :=
  match s with
  | EmptyString => true
  | String c rest => p c && string_forall p rest
  end.

(** The bytes of the text [String(n)] prints for a number: digits, the
    signs, the dot, and letters (the exponent mark, NaN, Infinity). *)
Definition number_char (c : ascii) : bool :=
  let n := N_of_ascii c in
  (((48 <=? n) && (n <=? 57)) || (n =? 45) || (n =? 43) || (n =? 46)
   || ((65 <=? n) && (n <=? 90)) || ((97 <=? n) && (n <=? 122)))%N.

Definition number_text (s : string) : bool :=
  string_forall number_char s && negb (String.eqb s "").

(** A double, known by the text [String(n)] prints for it, which
    determines it up to the sign of zero (both zeros print as 0, and the
    code tells them apart nowhere). *)
Record number : Type := mkNumber {
  num_text : string;
  num_wf : Is_true (number_text num_text);
}.

(** ToBoolean of a number: false on the zeros and on NaN. *)
Definition num_truthy (n : number) : bool :=
  negb (String.eqb (num_text n) "0" || String.eqb (num_text n) "NaN").

(** Whether the number is neither NaN nor an infinity. *)
Definition num_finite (n : number) : bool :=
  negb (String.eqb (num_text n) "NaN"
        || String.eqb (num_text n) "Infinity"
        || String.eqb (num_text n) "-Infinity").

(** The double of an integer that a double holds exactly (at most 2^53 in
    absolute value), printed in decimal. *)
Definition Int (z : Z)
    (ok : Is_true ((Z.abs z <=? 9007199254740992) && number_text (pretty z)))
  : number :=
  {| num_text := pretty z;
     num_wf := proj2 (andb_prop_elim _ _ ok) |}.

#[warnings="-register-all"]
Inductive json : Type :=
  | JNull
  | JBool (b : bool)
  | JNum (n : number)
  | JStr (s : string)
  | JArr (items : list json)
  | JObj (props : list (string * json)). (* own properties, in enumeration order *)

(** A value that may be [undefined]. *)
Abbreviation jsval := (option json).

(** ToBoolean. *)
Definition truthy_json (v : json) : bool :=
  match v with
  | JNull => false
  | JBool b => b
  | JNum n => num_truthy n
  | JStr s => negb (String.eqb s "")
  | JArr _ | JObj _ => true
  end.

Definition truthy (v : jsval) : bool :=
  match v with
  | None => false
  | Some x => truthy_json x
  end.

(** ** Errors and outcomes *)

(** A [MakeApiError] keeps its three public fields and the message its
    constructor computed. *)
Inductive error : Type :=
  | MakeApiError (statusCode : Z) (statusText : string) (detail : jsval)
                 (message : string)
  | TypeError (message : string)
  | SyntaxError (message : string).

Inductive Outcome (A : Type) : Type :=
  | Fulfilled (a : A)
  | Rejected (e : error).
Arguments Fulfilled {A} a.
Arguments Rejected {A} e.

(** Sequencing of code that may throw. *)
Definition and_then {A B} (o : Outcome A) (k : A -> Outcome B) : Outcome B :=
  match o with
  | Fulfilled a => k a
  | Rejected e => Rejected e
  end.

(** Own property lookup. *)
Fixpoint lookup_prop (key : string) (props : list (string * json)) : jsval :=
  match props with
  | [] => None
  | (k, v) :: rest => if String.eqb k key then Some v else lookup_prop key rest
  end.

(** Property read [o.key]: it throws on [null], is [undefined] on the
    other primitives and on arrays for the keys used here. *)
Definition get_prop (o : json) (key : string) : Outcome jsval :=
  match o with
  | JNull => Rejected (TypeError ("Cannot read properties of null (reading '" +:+ key +:+ "')"))
  | JObj props => Fulfilled (lookup_prop key props)
  | _ => Fulfilled None
  end.

(** ** ToString *)

(** Whether ToString returns. An object is converted by the [toString]
    it inherits unless it has an own property of that name, which parsed
    JSON never makes callable: then [valueOf] gives the object back and
    the conversion throws. An array joins the conversions of its
    elements. *)
Fixpoint converts (v : json) : bool :=
  match v with
  | JArr items => forallb converts items
  | JObj props =>
      match lookup_prop "toString" props with
      | Some _ => false
      | None => true
      end
  | _ => true
  end.

(** What ToString returns when it returns. *)
Fixpoint text_of (v : json) : string :=
  match v with
  | JNull => "null"
  | JBool true => "true"
  | JBool false => "false"
  | JNum n => num_text n
  | JStr s => s
  | JArr items =>
      String.concat ","
        (map (fun x => match x with JNull => "" | _ => text_of x end) items)
  | JObj _ => "[object Object]"
  end.

(** The message of the TypeError of a failed conversion, as Node words
    it. *)
Definition cannot_convert : string := "Cannot convert object to primitive value".

(** ToString, as [String(value)] and template literals apply it. *)
Definition ToString (v : json) : Outcome string :=
  if converts v then Fulfilled (text_of v)
  else Rejected (TypeError cannot_convert).

Definition String_ (v : jsval) : Outcome string :=
  match v with
  | None => Fulfilled "undefined"
  | Some x => ToString x
  end.

(** ** JSON.stringify *)

(** The double quote and the line feed, by their codes. *)
Definition DQUOTE : string := String "034"%char EmptyString.
Definition LF : string := String "010"%char EmptyString.

Definition hex_digit (upper : bool) (n : N) : ascii :=
  if (n <? 10)%N then ascii_of_N (48 + n)
  else ascii_of_N ((if upper then 55 else 87) + n).

Definition quote_char (c : ascii) : string :=
  let n := N_of_ascii c in
  if (n =? 34)%N then String "\" DQUOTE
  else if (n =? 92)%N then "\\"
  else if (n =? 8)%N then "\b"
  else if (n =? 12)%N then "\f"
  else if (n =? 10)%N then "\n"
  else if (n =? 13)%N then "\r"
  else if (n =? 9)%N then "\t"
  else if (n <? 32)%N then
    "\u00" +:+ String (hex_digit false (n / 16)) (String (hex_digit false (n mod 16)) "")
  else String c "".

Fixpoint quote_body (s : string) : string :=
  match s with
  | EmptyString => ""
  | String c rest => quote_char c +:+ quote_body rest
  end.

Definition QuoteJSONString (s : string) : string :=
  DQUOTE +:+ quote_body s +:+ DQUOTE.

(** [JSON.stringify(value, null, gap)], after SerializeJSONProperty of the
    language standard: [gap] is the indentation unit (empty for the
    compact form) and [indent] the current indentation. *)
Fixpoint SerializeJSON (gap indent : string) (v : json) : string :=
  let stepback := indent in
  let indent := indent +:+ gap in
  let wrap (opening closing : string) (partial : list string) : string :=
    match partial with
    | [] => opening +:+ closing
    | _ =>
        if String.eqb gap "" then
          opening +:+ String.concat "," partial +:+ closing
        else
          opening +:+ LF +:+ indent
            +:+ String.concat ("," +:+ LF +:+ indent) partial
            +:+ LF +:+ stepback +:+ closing
    end in
  match v with
  | JNull => "null"
  | JBool true => "true"
  | JBool false => "false"
  | JNum n => if num_finite n then num_text n else "null"
  | JStr s => QuoteJSONString s
  | JArr items => wrap "[" "]" (map (SerializeJSON gap indent) items)
  | JObj props =>
      wrap "{" "}"
        (map (fun kv => match kv with
                        | (k, x) =>
                            QuoteJSONString k
                              +:+ (if String.eqb gap "" then ":" else ": ")
                              +:+ SerializeJSON gap indent x
                        end) props)
  end.

(** [JSON.stringify(value)] *)
Definition JSON_stringify (v : json) : string := SerializeJSON "" "" v.

(** [JSON.stringify(value, null, 2)] *)
Definition JSON_stringify_2 (v : json) : string := SerializeJSON "  " "" v.

(** An object literal as the client uses one (as a request body, read only
    by [JSON.stringify] and by a truthiness test): a property that holds
    [undefined] is not serialized, hence left out. *)
Definition object_literal (props : list (string * jsval)) : json :=
  JObj (omap (fun kv => match kv with (k, v) => pair k <$> v end) props).

(** ** URLSearchParams *)

(** Bytes the application/x-www-form-urlencoded serializer leaves alone:
    [*], [-], [.], [_], digits and letters. *)
Definition urlencoded_plain (n : N) : bool :=
  ((n =? 42) || (n =? 45) || (n =? 46) || (n =? 95)
   || ((48 <=? n) && (n <=? 57))
   || ((65 <=? n) && (n <=? 90))
   || ((97 <=? n) && (n <=? 122)))%N.

Definition urlencode_byte (c : ascii) : string :=
  let n := N_of_ascii c in
  if (n =? 32)%N then "+"
  else if urlencoded_plain n then String c ""
  else String "%" (String (hex_digit true (n / 16)) (String (hex_digit true (n mod 16)) "")).

Fixpoint urlencode (s : string) : string :=
  match s with
  | EmptyString => ""
  | String c rest => urlencode_byte c +:+ urlencode rest
  end.

(** The list of name-value pairs of a [URLSearchParams] object. *)
Definition URLSearchParams : Type := list (string * string).

Definition params_append (params : URLSearchParams) (key value : string)
  : URLSearchParams :=
  params ++ [(key, value)].

Definition params_toString (params : URLSearchParams) : string :=
  String.concat "&"
    (map (fun kv => urlencode kv.1 +:+ "=" +:+ urlencode kv.2) params).

(** ** The remote service, seen through [fetch] *)

Record Request : Type := mkRequest {
  req_url : string;
  req_method : string;
  req_headers : list (string * string);
  req_body : option string;
}.

(** What [response.json()] settles to: the parsed body, or the message of
    the SyntaxError the parser gives for a text that is not JSON. *)
Inductive Body : Type :=
  | Json (v : json)
  | NotJson (syntax_error : string).

Record Response : Type := mkResponse {
  res_status : Z;
  res_statusText : string;
  res_json : Body;
}.

(** [response.ok]: the status is in the range 200-299. *)
Definition res_ok (r : Response) : bool :=
  (200 <=? res_status r) && (res_status r <=? 299).

Inductive FetchOutcome : Type :=
  | Responded (r : Response)
  | NetworkFailure (message : string).

Definition Remote : Type := Request -> FetchOutcome.

(** An asynchronous computation: run against a remote, it yields the
    requests it issued, in order, and how it settled. *)
Definition Async (A : Type) : Type := Remote -> list Request * Outcome A.

Definition ret {A} (a : A) : Async A := fun _ => ([], Fulfilled a).

Definition throw {A} (e : error) : Async A := fun _ => ([], Rejected e).

Definition bind {A B} (m : Async A) (k : A -> Async B) : Async B :=
  fun w =>
    match m w with
    | (t1, Fulfilled a) =>
        match k a w with
        | (t2, o) => (t1 ++ t2, o)
        end
    | (t1, Rejected e) => (t1, Rejected e)
    end.

Definition try_catch {A} (m : Async A) (handler : error -> Async A) : Async A :=
  fun w =>
    match m w with
    | (t1, Fulfilled a) => (t1, Fulfilled a)
    | (t1, Rejected e) =>
        match handler e w with
        | (t2, o) => (t1 ++ t2, o)
        end
    end.

Notation "x <- m ;;; k" := (bind m (fun x => k))
  (at level 100, m at next level, right associativity).

(** [fetch]: one request goes out; a network failure rejects with a
    TypeError. *)
Definition fetch (req : Request) : Async Response :=
  fun w =>
    ([req], match w req with
            | Responded r => Fulfilled r
            | NetworkFailure msg => Rejected (TypeError msg)
            end).

(** [response.json()] *)
Definition response_json (r : Response) : Outcome json :=
  match res_json r with
  | Json v => Fulfilled v
  | NotJson message => Rejected (SyntaxError message)
  end.

Definition lift {A} (o : Outcome A) : Async A := fun _ => ([], o).


(** ** make-client.ts *)

Record MakeConfig : Type := mkMakeConfig {
  apiToken : string;
  zone : string;
}.

Record PaginationParams : Type := mkPaginationParams {
  offset : jsval;
  limit : jsval;
  sortBy : jsval;
  sortDir : jsval;
}.

(** [pagination?.field] *)
Definition pg (field : PaginationParams -> jsval)
    (pagination : option PaginationParams) : jsval :=
  pagination ≫= field.

(** [new MakeApiError(statusCode, statusText, detail)]: the constructor
    builds the message with a template literal, which converts a truthy
    detail to a string and throws when that conversion does. *)
Definition new_MakeApiError (statusCode : Z) (statusText : string) (detail : jsval)
  : Outcome error :=
  and_then
    (if truthy detail then and_then (String_ detail) (fun d => Fulfilled (" - " +:+ d))
     else Fulfilled "")
    (fun suffix =>
       Fulfilled
         (MakeApiError statusCode statusText detail
            ("Make API Error " +:+ pretty statusCode +:+ ": " +:+ statusText
               +:+ suffix))).

(** [error.message] *)
Definition error_message (e : error) : string :=
  match e with
  | MakeApiError _ _ _ message => message
  | TypeError message => message
  | SyntaxError message => message
  end.

(** [error.name] *)
Definition error_name (e : error) : string :=
  match e with
  | MakeApiError _ _ _ _ => "MakeApiError"
  | TypeError _ => "TypeError"
  | SyntaxError _ => "SyntaxError"
  end.

(** [error instanceof MakeApiError] *)
Definition instanceof_MakeApiError (e : error) : bool :=
  match e with
  | MakeApiError _ _ _ _ => true
  | _ => false
  end.

(** [String(error)], that is [Error.prototype.toString]. *)
Definition String_error (e : error) : string :=
  if String.eqb (error_message e) "" then error_name e
  else error_name e +:+ ": " +:+ error_message e.

Record MakeClient : Type := mkMakeClient {
  baseUrl : string;
  headers : list (string * string);
}.

Definition new_MakeClient (config : MakeConfig) : MakeClient :=
  {| baseUrl := "https://" +:+ zone config +:+ ".make.com/api/v2";
     headers := [("Authorization", "Token " +:+ apiToken config);
                 ("Content-Type", "application/json")] |}.

(** [Record<string, string | number | boolean | undefined>]: the own
    properties in insertion order, [None] for a property that holds
    [undefined]. *)
Definition QueryParams : Type := list (string * jsval).

(** [queryParams[key] = value] *)
Fixpoint set_prop (o : QueryParams) (key : string) (value : jsval) : QueryParams :=
  match o with
  | [] => [(key, value)]
  | (k, v) :: rest =>
      if String.eqb k key then (k, value) :: rest
      else (k, v) :: set_prop rest key value
  end.

(** The loop of [request] over [Object.entries(queryParams)]; it stops at
    the first value that [String] cannot convert. *)
Definition collect_params (entries : QueryParams) : Outcome URLSearchParams :=
  fold_left
    (fun collected kv =>
       and_then collected
         (fun params =>
            match kv.2 with
            | Some value =>
                and_then (ToString value)
                  (fun text => Fulfilled (params_append params kv.1 text))
            | None => Fulfilled params
            end))
    entries (Fulfilled []).

(** The first half of [request]: the URL, or the TypeError of a query
    value that cannot be converted. *)
Definition build_url (this : MakeClient) (path : string)
    (queryParams : option QueryParams) : Outcome string :=
  let url := baseUrl this +:+ path in
  match queryParams with
  | Some entries =>
      and_then (collect_params entries)
        (fun params =>
           let queryString := params_toString params in
           Fulfilled (if negb (String.eqb queryString "")
                      then url +:+ "?" +:+ queryString
                      else url))
  | None => Fulfilled url
  end.

(** The [try { ... } catch { }] around the reading of an error body:
    [errorBody.message || errorBody.detail || JSON.stringify(errorBody)],
    and [undefined] when anything in it throws. *)
Definition error_detail (response : Response) : jsval :=
  let attempt : Outcome jsval :=
    match response_json response with
    | Rejected e => Rejected e
    | Fulfilled errorBody =>
        match get_prop errorBody "message" with
        | Rejected e => Rejected e
        | Fulfilled message =>
            if truthy message then Fulfilled message
            else
              match get_prop errorBody "detail" with
              | Rejected e => Rejected e
              | Fulfilled detail =>
                  if truthy detail then Fulfilled detail
                  else Fulfilled (Some (JStr (JSON_stringify errorBody)))
              end
        end
    end in
  match attempt with
  | Fulfilled detail => detail
  | Rejected _ => None
  end.

(** The second half of [request]: the call of [fetch] and the reading of
    the response. *)
Definition exchange (this : MakeClient) (method url : string) (body : jsval)
  : Async json :=
  response <- fetch {| req_url := url;
                       req_method := method;
                       req_headers := headers this;
                       req_body := if truthy body then JSON_stringify <$> body
                                   else None |} ;;;
  if negb (res_ok response) then
    (error <- lift (new_MakeApiError (res_status response) (res_statusText response)
                      (error_detail response)) ;;;
     throw error)
  else lift (response_json response).

Definition request (this : MakeClient) (method path : string) (body : jsval)
    (queryParams : option QueryParams) : Async json :=
  url <- lift (build_url this path queryParams) ;;;
  exchange this method url body.

(** The pagination lines shared by the listing methods. *)
Definition add_if_truthy (queryParams : QueryParams) (key : string) (value : jsval)
  : QueryParams :=
  if truthy value then set_prop queryParams key value else queryParams.

Definition listScenarios (this : MakeClient) (teamId organizationId : jsval)
    (pagination : option PaginationParams) : Async json :=
  let queryParams : QueryParams := [] in
  let queryParams := add_if_truthy queryParams "teamId" teamId in
  let queryParams := add_if_truthy queryParams "organizationId" organizationId in
  let queryParams := add_if_truthy queryParams "pg[offset]" (pg offset pagination) in
  let queryParams := add_if_truthy queryParams "pg[limit]" (pg limit pagination) in
  let queryParams := add_if_truthy queryParams "pg[sortBy]" (pg sortBy pagination) in
  let queryParams := add_if_truthy queryParams "pg[sortDir]" (pg sortDir pagination) in
  request this "GET" "/scenarios" None (Some queryParams).

(** In the methods below the path is a template literal: the identifier
    is converted first, and a conversion that throws rejects the call
    before [request] is entered. *)
Definition getScenario (this : MakeClient) (scenarioId : jsval) : Async json :=
  id <- lift (String_ scenarioId) ;;;
  request this "GET" ("/scenarios/" +:+ id) None None.

Definition createScenario (this : MakeClient) (params : jsval) : Async json :=
  request this "POST" "/scenarios" params
    (Some [("confirmed", Some (JBool true))]).

Definition updateScenario (this : MakeClient) (scenarioId params : jsval)
  : Async json :=
  id <- lift (String_ scenarioId) ;;;
  request this "PATCH" ("/scenarios/" +:+ id) params
    (Some [("confirmed", Some (JBool true))]).

Definition deleteScenario (this : MakeClient) (scenarioId : jsval) : Async json :=
  id <- lift (String_ scenarioId) ;;;
  request this "DELETE" ("/scenarios/" +:+ id) None None.

Definition activateScenario (this : MakeClient) (scenarioId : jsval) : Async json :=
  id <- lift (String_ scenarioId) ;;;
  request this "POST" ("/scenarios/" +:+ id +:+ "/start") None None.

Definition deactivateScenario (this : MakeClient) (scenarioId : jsval) : Async json :=
  id <- lift (String_ scenarioId) ;;;
  request this "POST" ("/scenarios/" +:+ id +:+ "/stop") None None.

Definition runScenario (this : MakeClient) (scenarioId params : jsval) : Async json :=
  id <- lift (String_ scenarioId) ;;;
  request this "POST" ("/scenarios/" +:+ id +:+ "/run") params None.

(** [states] defaults to [false] when it is not passed. *)
Definition cloneScenario (this : MakeClient)
    (scenarioId name teamId organizationId states : jsval) : Async json :=
  let states := match states with None => Some (JBool false) | Some _ => states end in
  id <- lift (String_ scenarioId) ;;;
  request this "POST" ("/scenarios/" +:+ id +:+ "/clone")
    (Some (object_literal [("name", name); ("teamId", teamId); ("states", states)]))
    (Some [("organizationId", organizationId)]).

Definition getScenarioBlueprint (this : MakeClient) (scenarioId : jsval) : Async json :=
  id <- lift (String_ scenarioId) ;;;
  request this "GET" ("/scenarios/" +:+ id +:+ "/blueprint") None None.

Definition updateScenarioBlueprint (this : MakeClient) (scenarioId blueprint : jsval)
  : Async json :=
  id <- lift (String_ scenarioId) ;;;
  request this "PATCH" ("/scenarios/" +:+ id)
    (Some (object_literal [("blueprint", blueprint)]))
    (Some [("confirmed", Some (JBool true))]).

Definition listConnections (this : MakeClient) (teamId : jsval)
    (pagination : option PaginationParams) : Async json :=
  let queryParams : QueryParams := [("teamId", teamId)] in
  let queryParams := add_if_truthy queryParams "pg[offset]" (pg offset pagination) in
  let queryParams := add_if_truthy queryParams "pg[limit]" (pg limit pagination) in
  request this "GET" "/connections" None (Some queryParams).

Definition listHooks (this : MakeClient) (teamId : jsval)
    (pagination : option PaginationParams) : Async json :=
  let queryParams : QueryParams := [("teamId", teamId)] in
  let queryParams := add_if_truthy queryParams "pg[offset]" (pg offset pagination) in
  let queryParams := add_if_truthy queryParams "pg[limit]" (pg limit pagination) in
  request this "GET" "/hooks" None (Some queryParams).

Definition listDataStores (this : MakeClient) (teamId : jsval)
    (pagination : option PaginationParams) : Async json :=
  let queryParams : QueryParams := [("teamId", teamId)] in
  let queryParams := add_if_truthy queryParams "pg[offset]" (pg offset pagination) in
  let queryParams := add_if_truthy queryParams "pg[limit]" (pg limit pagination) in
  request this "GET" "/data-stores" None (Some queryParams).

Definition getDataStore (this : MakeClient) (dataStoreId : jsval) : Async json :=
  id <- lift (String_ dataStoreId) ;;;
  request this "GET" ("/data-stores/" +:+ id) None None.

Definition createDataStore (this : MakeClient)
    (teamId name maxSize dataStructureId : jsval) : Async json :=
  request this "POST" "/data-stores"
    (Some (object_literal [("teamId", teamId); ("name", name);
                           ("maxSizeMB", maxSize);
                           ("dataStructureId", dataStructureId)]))
    None.

Definition listDataStoreRecords (this : MakeClient) (dataStoreId : jsval)
    (pagination : option PaginationParams) : Async json :=
  let queryParams : QueryParams := [] in
  let queryParams := add_if_truthy queryParams "pg[offset]" (pg offset pagination) in
  let queryParams := add_if_truthy queryParams "pg[limit]" (pg limit pagination) in
  id <- lift (String_ dataStoreId) ;;;
  request this "GET" ("/data-stores/" +:+ id +:+ "/data") None (Some queryParams).

Definition createDataStoreRecord (this : MakeClient) (dataStoreId data : jsval)
  : Async json :=
  id <- lift (String_ dataStoreId) ;;;
  request this "POST" ("/data-stores/" +:+ id +:+ "/data") data None.

Definition listTeams (this : MakeClient) (organizationId : jsval)
    (pagination : option PaginationParams) : Async json :=
  let queryParams : QueryParams := [("organizationId", organizationId)] in
  let queryParams := add_if_truthy queryParams "pg[offset]" (pg offset pagination) in
  let queryParams := add_if_truthy queryParams "pg[limit]" (pg limit pagination) in
  request this "GET" "/teams" None (Some queryParams).

Definition listOrganizations (this : MakeClient)
    (pagination : option PaginationParams) : Async json :=
  let queryParams : QueryParams := [] in
  let queryParams := add_if_truthy queryParams "pg[offset]" (pg offset pagination) in
  let queryParams := add_if_truthy queryParams "pg[limit]" (pg limit pagination) in
  request this "GET" "/organizations" None (Some queryParams).

Definition getCurrentUser (this : MakeClient) : Async json :=
  request this "GET" "/users/me" None None.

Definition getScenarioLogs (this : MakeClient) (scenarioId : jsval)
    (pagination : option PaginationParams) : Async json :=
  let queryParams : QueryParams := [] in
  let queryParams := add_if_truthy queryParams "pg[offset]" (pg offset pagination) in
  let queryParams := add_if_truthy queryParams "pg[limit]" (pg limit pagination) in
  id <- lift (String_ scenarioId) ;;;
  request this "GET" ("/scenarios/" +:+ id +:+ "/logs") None (Some queryParams).

(** ** The tool catalogs and the dispatchers *)

Record Property : Type := mkProperty {
  prop_name : string;
  prop_type : string;
  prop_description : option string;
}.

Record Tool : Type := mkTool {
  tool_name : string;
  tool_description : string;
  properties : list Property;
  required : option (list string);
}.

Record ContentBlock : Type := mkContentBlock {
  type : string;
  text : string;
}.

Record CallToolResult : Type := mkCallToolResult {
  content : list ContentBlock;
  isError : option bool;
}.

(** [request.params.arguments]: an unordered bag of fields, or nothing. *)
Abbreviation Arguments_bag := (option (gmap string json)).

(** [args?.key] *)
Definition arg (args : Arguments_bag) (key : string) : jsval :=
  args ≫= (fun bag => bag !! key).

(** [{ content: [{ type: "text", text: JSON.stringify(result, null, 2) }] }] *)
Definition text_result (result : json) : CallToolResult :=
  {| content := [ {| type := "text"; text := JSON_stringify_2 result |} ];
     isError := None |}.

(** [{ content: [{ type: "text", text }], isError: true }] *)
Definition error_result (message : string) : CallToolResult :=
  {| content := [ {| type := "text"; text := message |} ];
     isError := Some true |}.

Definition num (name : string) (description : string) : Property :=
  {| prop_name := name; prop_type := "number"; prop_description := Some description |}.
Definition str (name : string) (description : string) : Property :=
  {| prop_name := name; prop_type := "string"; prop_description := Some description |}.
Definition obj (name : string) (description : string) : Property :=
  {| prop_name := name; prop_type := "object"; prop_description := Some description |}.
Definition boolean (name : string) (description : string) : Property :=
  {| prop_name := name; prop_type := "boolean"; prop_description := Some description |}.

(** src/index.ts: the stdio server. *)
Module Index.

Definition tools : list Tool := [
  {| tool_name := "list_scenarios";
     tool_description := "List all scenarios for a team or organization";
     properties := [
       num "teamId" "Team ID (required if no organizationId)";
       num "organizationId" "Organization ID (required if no teamId)";
       num "limit" "Max results (default 50)";
       num "offset" "Pagination offset" ];
     required := None |};
  {| tool_name := "get_scenario";
     tool_description := "Get details of a specific scenario";
     properties := [ num "scenarioId" "Scenario ID" ];
     required := Some ["scenarioId"] |};
  {| tool_name := "create_scenario";
     tool_description := "Create a new scenario with a blueprint. The blueprint defines the workflow modules and their connections.";
     properties := [
       num "teamId" "Team ID where to create the scenario";
       str "name" "Scenario name";
       str "blueprint" "JSON string of the scenario blueprint with flow array";
       str "scheduling"
         ("Scheduling config JSON. Use '{" +:+ DQUOTE +:+ "type" +:+ DQUOTE +:+ ":"
            +:+ DQUOTE +:+ "on-demand" +:+ DQUOTE
            +:+ "}' for manual trigger or '{" +:+ DQUOTE +:+ "type" +:+ DQUOTE +:+ ":"
            +:+ DQUOTE +:+ "indefinitely" +:+ DQUOTE +:+ "," +:+ DQUOTE +:+ "interval"
            +:+ DQUOTE +:+ ":15}' for scheduled (interval in minutes)");
       num "folderId" "Optional folder ID" ];
     required := Some ["teamId"; "blueprint"; "scheduling"] |};
  {| tool_name := "update_scenario";
     tool_description := "Update an existing scenario (name, blueprint, scheduling, folder)";
     properties := [
       num "scenarioId" "Scenario ID to update";
       str "name" "New scenario name";
       str "blueprint" "New blueprint JSON string";
       str "scheduling" "New scheduling config JSON";
       num "folderId" "New folder ID" ];
     required := Some ["scenarioId"] |};
  {| tool_name := "delete_scenario";
     tool_description := "Delete a scenario permanently";
     properties := [ num "scenarioId" "Scenario ID to delete" ];
     required := Some ["scenarioId"] |};
  {| tool_name := "activate_scenario";
     tool_description := "Activate a scenario so it can run";
     properties := [ num "scenarioId" "Scenario ID to activate" ];
     required := Some ["scenarioId"] |};
  {| tool_name := "deactivate_scenario";
     tool_description := "Deactivate a scenario to stop it from running";
     properties := [ num "scenarioId" "Scenario ID to deactivate" ];
     required := Some ["scenarioId"] |};
  {| tool_name := "run_scenario";
     tool_description := "Run a scenario immediately. Scenario must be active and set to on-demand scheduling.";
     properties := [
       num "scenarioId" "Scenario ID to run";
       obj "data" "Input data for scenario inputs";
       boolean "responsive" "Wait for result (max 40s)" ];
     required := Some ["scenarioId"] |};
  {| tool_name := "clone_scenario";
     tool_description := "Clone/duplicate a scenario";
     properties := [
       num "scenarioId" "Source scenario ID";
       str "name" "Name for the clone";
       num "teamId" "Target team ID";
       num "organizationId" "Organization ID" ];
     required := Some ["scenarioId"; "name"; "teamId"; "organizationId"] |};
  {| tool_name := "get_scenario_blueprint";
     tool_description := "Get the full blueprint (flow definition) of a scenario";
     properties := [ num "scenarioId" "Scenario ID" ];
     required := Some ["scenarioId"] |};
  {| tool_name := "get_scenario_logs";
     tool_description := "Get execution logs for a scenario";
     properties := [ num "scenarioId" "Scenario ID"; num "limit" "Max results" ];
     required := Some ["scenarioId"] |};
  {| tool_name := "list_connections";
     tool_description := "List all connections (API credentials) for a team";
     properties := [ num "teamId" "Team ID"; num "limit" "Max results" ];
     required := Some ["teamId"] |};
  {| tool_name := "list_hooks";
     tool_description := "List all webhooks for a team";
     properties := [ num "teamId" "Team ID"; num "limit" "Max results" ];
     required := Some ["teamId"] |};
  {| tool_name := "list_data_stores";
     tool_description := "List all data stores for a team";
     properties := [ num "teamId" "Team ID"; num "limit" "Max results" ];
     required := Some ["teamId"] |};
  {| tool_name := "get_data_store";
     tool_description := "Get details of a data store";
     properties := [ num "dataStoreId" "Data Store ID" ];
     required := Some ["dataStoreId"] |};
  {| tool_name := "create_data_store";
     tool_description := "Create a new data store";
     properties := [
       num "teamId" "Team ID";
       str "name" "Data store name";
       num "maxSize" "Max size in MB" ];
     required := Some ["teamId"; "name"] |};
  {| tool_name := "list_data_store_records";
     tool_description := "List records in a data store";
     properties := [ num "dataStoreId" "Data Store ID"; num "limit" "Max results" ];
     required := Some ["dataStoreId"] |};
  {| tool_name := "create_data_store_record";
     tool_description := "Create a record in a data store";
     properties := [ num "dataStoreId" "Data Store ID"; obj "data" "Record data" ];
     required := Some ["dataStoreId"; "data"] |};
  {| tool_name := "list_teams";
     tool_description := "List all teams in an organization";
     properties := [ num "organizationId" "Organization ID"; num "limit" "Max results" ];
     required := Some ["organizationId"] |};
  {| tool_name := "list_organizations";
     tool_description := "List all organizations the user has access to";
     properties := [ num "limit" "Max results" ];
     required := None |};
  {| tool_name := "get_current_user";
     tool_description := "Get information about the authenticated user";
     properties := [];
     required := None |}
].

(** The [switch (name)] inside the [try] block of the CallTool handler. *)
Definition call_tool_switch (client : MakeClient) (name : string)
    (args : Arguments_bag) : Async CallToolResult :=
  if String.eqb name "list_scenarios" then
    (result <- listScenarios client (arg args "teamId") (arg args "organizationId")
                 (Some {| limit := arg args "limit"; offset := arg args "offset";
                          sortBy := None; sortDir := None |}) ;;;
     ret (text_result result))
  else if String.eqb name "get_scenario" then
    (result <- getScenario client (arg args "scenarioId") ;;;
     ret (text_result result))
  else if String.eqb name "create_scenario" then
    (result <- createScenario client
                 (Some (object_literal [("teamId", arg args "teamId");
                                        ("blueprint", arg args "blueprint");
                                        ("scheduling", arg args "scheduling");
                                        ("folderId", arg args "folderId")])) ;;;
     ret (text_result result))
  else if String.eqb name "update_scenario" then
    (result <- updateScenario client (arg args "scenarioId")
                 (Some (object_literal [("name", arg args "name");
                                        ("blueprint", arg args "blueprint");
                                        ("scheduling", arg args "scheduling");
                                        ("folderId", arg args "folderId")])) ;;;
     ret (text_result result))
  else if String.eqb name "delete_scenario" then
    (result <- deleteScenario client (arg args "scenarioId") ;;;
     ret (text_result result))
  else if String.eqb name "activate_scenario" then
    (result <- activateScenario client (arg args "scenarioId") ;;;
     ret (text_result result))
  else if String.eqb name "deactivate_scenario" then
    (result <- deactivateScenario client (arg args "scenarioId") ;;;
     ret (text_result result))
  else if String.eqb name "run_scenario" then
    (result <- runScenario client (arg args "scenarioId")
                 (Some (object_literal [("data", arg args "data");
                                        ("responsive", arg args "responsive")])) ;;;
     ret (text_result result))
  else if String.eqb name "clone_scenario" then
    (result <- cloneScenario client (arg args "scenarioId") (arg args "name")
                 (arg args "teamId") (arg args "organizationId") None ;;;
     ret (text_result result))
  else if String.eqb name "get_scenario_blueprint" then
    (result <- getScenarioBlueprint client (arg args "scenarioId") ;;;
     ret (text_result result))
  else if String.eqb name "get_scenario_logs" then
    (result <- getScenarioLogs client (arg args "scenarioId")
                 (Some {| limit := arg args "limit"; offset := None;
                          sortBy := None; sortDir := None |}) ;;;
     ret (text_result result))
  else if String.eqb name "list_connections" then
    (result <- listConnections client (arg args "teamId")
                 (Some {| limit := arg args "limit"; offset := None;
                          sortBy := None; sortDir := None |}) ;;;
     ret (text_result result))
  else if String.eqb name "list_hooks" then
    (result <- listHooks client (arg args "teamId")
                 (Some {| limit := arg args "limit"; offset := None;
                          sortBy := None; sortDir := None |}) ;;;
     ret (text_result result))
  else if String.eqb name "list_data_stores" then
    (result <- listDataStores client (arg args "teamId")
                 (Some {| limit := arg args "limit"; offset := None;
                          sortBy := None; sortDir := None |}) ;;;
     ret (text_result result))
  else if String.eqb name "get_data_store" then
    (result <- getDataStore client (arg args "dataStoreId") ;;;
     ret (text_result result))
  else if String.eqb name "create_data_store" then
    (result <- createDataStore client (arg args "teamId") (arg args "name")
                 (arg args "maxSize") None ;;;
     ret (text_result result))
  else if String.eqb name "list_data_store_records" then
    (result <- listDataStoreRecords client (arg args "dataStoreId")
                 (Some {| limit := arg args "limit"; offset := None;
                          sortBy := None; sortDir := None |}) ;;;
     ret (text_result result))
  else if String.eqb name "create_data_store_record" then
    (result <- createDataStoreRecord client (arg args "dataStoreId")
                 (arg args "data") ;;;
     ret (text_result result))
  else if String.eqb name "list_teams" then
    (result <- listTeams client (arg args "organizationId")
                 (Some {| limit := arg args "limit"; offset := None;
                          sortBy := None; sortDir := None |}) ;;;
     ret (text_result result))
  else if String.eqb name "list_organizations" then
    (result <- listOrganizations client
                 (Some {| limit := arg args "limit"; offset := None;
                          sortBy := None; sortDir := None |}) ;;;
     ret (text_result result))
  else if String.eqb name "get_current_user" then
    (result <- getCurrentUser client ;;;
     ret (text_result result))
  else
    ret (error_result ("Unknown tool: " +:+ name)).

(** The CallTool handler: the switch, and a [catch] that recovers a
    [MakeApiError] and rethrows anything else. *)
Definition call_tool (client : MakeClient) (name : string) (args : Arguments_bag)
  : Async CallToolResult :=
  try_catch (call_tool_switch client name args)
    (fun error =>
       if instanceof_MakeApiError error then
         ret (error_result ("Make API Error: " +:+ error_message error))
       else throw error).

End Index.

(** api/mcp.ts: the hosted handler. *)
Module ApiMcp.

Definition tools : list Tool := [
  {| tool_name := "list_scenarios";
     tool_description := "List all scenarios for a team or organization";
     properties := [
       num "teamId" "Team ID";
       num "organizationId" "Organization ID";
       {| prop_name := "limit"; prop_type := "number"; prop_description := None |};
       {| prop_name := "offset"; prop_type := "number"; prop_description := None |} ];
     required := None |};
  {| tool_name := "run_scenario";
     tool_description := "Run a scenario immediately";
     properties := [ num "scenarioId" "Scenario ID" ];
     required := Some ["scenarioId"] |}
].

Definition call_tool_switch (client : MakeClient) (name : string)
    (args : Arguments_bag) : Async CallToolResult :=
  if String.eqb name "list_scenarios" then
    (result <- listScenarios client (arg args "teamId") (arg args "organizationId")
                 (Some {| limit := arg args "limit"; offset := arg args "offset";
                          sortBy := None; sortDir := None |}) ;;;
     ret (text_result result))
  else if String.eqb name "run_scenario" then
    (result <- runScenario client (arg args "scenarioId") None ;;;
     ret (text_result result))
  else
    ret (error_result ("Unknown tool: " +:+ name)).

(** Here the [catch] recovers every error, as [String(error)]. *)
Definition call_tool (client : MakeClient) (name : string) (args : Arguments_bag)
  : Async CallToolResult :=
  try_catch (call_tool_switch client name args)
    (fun error => ret (error_result (String_error error))).

End ApiMcp.
(** ** Vocabulary of the statements *)

(** The URLs of the requests a computation issues against [w]. *)
Definition urls {A} (m : Async A) (w : Remote) : list string :=
  map req_url (m w).1.

(** Whether [String(value)] returns; it does for [undefined]. *)
Definition converts_opt (v : jsval) : bool :=
  match v with
  | None => true
  | Some x => converts x
  end.

(** What [String(value)] returns when it returns. *)
Definition text_opt (v : jsval) : string :=
  match v with
  | None => "undefined"
  | Some x => text_of x
  end.

(** Every value of the entries can be converted. *)
Definition all_convert (entries : QueryParams) : bool :=
  forallb (fun kv => converts_opt kv.2) entries.

(** The entries whose value is not [undefined], each value as a string. *)
Definition defined_entries (entries : QueryParams) : URLSearchParams :=
  omap (fun kv => (fun v => (kv.1, text_of v)) <$> kv.2) entries.

(** The entries whose value is truthy. *)
Definition truthy_entries (entries : QueryParams) : QueryParams :=
  List.filter (fun kv => truthy kv.2) entries.

(** Base URL, path and, when some pair is sent, [?] and the pairs. *)
Definition url_of (this : MakeClient) (path : string) (sent : URLSearchParams)
  : string :=
  match sent with
  | [] => baseUrl this +:+ path
  | _ => (baseUrl this +:+ path) +:+ "?" +:+ params_toString sent
  end.

(** The request [exchange] hands to [fetch]. *)
Definition the_request (this : MakeClient) (method url : string) (body : jsval)
  : Request :=
  {| req_url := url;
     req_method := method;
     req_headers := headers this;
     req_body := if truthy body then JSON_stringify <$> body else None |}.

(** A client call once its URL is known, or known to have thrown. *)
Definition send (this : MakeClient) (method : string) (url : Outcome string)
    (body : jsval) : Async json :=
  u <- lift url ;;; exchange this method u body.

(** How [exchange] settles on what [fetch] brings back. *)
Definition answer (brought : FetchOutcome) : Outcome json :=
  match brought with
  | NetworkFailure msg => Rejected (TypeError msg)
  | Responded r =>
      if res_ok r then response_json r
      else
        match new_MakeApiError (res_status r) (res_statusText r) (error_detail r) with
        | Fulfilled e => Rejected e
        | Rejected e => Rejected e
        end
  end.

(** A URL a client method has built lies under the base URL; when the
    building throws, it is the TypeError of a failed conversion. *)
Definition url_ok (this : MakeClient) (url : Outcome string) : Prop :=
  match url with
  | Fulfilled u => String.prefix (baseUrl this) u = true
  | Rejected e => e = TypeError cannot_convert
  end.

(** What the handler of src/index.ts makes of a settled client call. *)
Definition settle_index (r : list Request * Outcome json)
  : list Request * Outcome CallToolResult :=
  (r.1,
   match r.2 with
   | Fulfilled result => Fulfilled (text_result result)
   | Rejected e =>
       if instanceof_MakeApiError e
       then Fulfilled (error_result ("Make API Error: " +:+ error_message e))
       else Rejected e
   end).

(** What the hosted handler makes of it. *)
Definition settle_hosted (r : list Request * Outcome json)
  : list Request * Outcome CallToolResult :=
  (r.1,
   match r.2 with
   | Fulfilled result => Fulfilled (text_result result)
   | Rejected e => Fulfilled (error_result (String_error e))
   end).

(** How many times the byte [c] occurs in [s]. *)
Fixpoint count_byte (c : ascii) (s : string) : nat :=
  match s with
  | EmptyString => 0%nat
  | String x rest => ((if Ascii.eqb x c then 1 else 0) + count_byte c rest)%nat
  end.

(** The text before the first [c]. *)
Fixpoint up_to (c : ascii) (s : string) : string :=
  match s with
  | EmptyString => EmptyString
  | String x rest => if Ascii.eqb x c then EmptyString else String x (up_to c rest)
  end.

(** The text after the first [c], when there is one. *)
Fixpoint after_first (c : ascii) (s : string) : option string :=
  match s with
  | EmptyString => None
  | String x rest => if Ascii.eqb x c then Some rest else after_first c rest
  end.

(** The query string of a URL, as a URL parser cuts it: after the first
    question mark and before the first hash. *)
Definition url_query (url : string) : option string :=
  after_first "?" (up_to "#" url).

(** The fields a catalog declares required for a tool. *)
Definition required_fields (catalog : list Tool) (name : string) : list string :=
  match find (fun t => String.eqb (tool_name t) name) catalog with
  | Some t => default [] (required t)
  | None => []
  end.

(** [text.includes(sub)] *)
Fixpoint includes (sub s : string) : bool :=
  String.prefix sub s
  || match s with
     | EmptyString => false
     | String _ rest => includes sub rest
     end.

(** ** Sample data for the closed statements *)

Definition sample_client : MakeClient :=
  new_MakeClient {| apiToken := "secret"; zone := "eu1" |}.

(** A remote that answers every request with the same response. *)
Definition always (r : Response) : Remote := fun _ => Responded r.

(** A remote that cannot be reached. *)
Definition unreachable : Remote := fun _ => NetworkFailure "fetch failed".

Definition ok_with (v : json) : Response :=
  {| res_status := 200; res_statusText := "OK"; res_json := Json v |}.

Definition not_found (b : Body) : Response :=
  {| res_status := 404; res_statusText := "Not Found"; res_json := b |}.

(** get_scenario on scenario 999. *)
Definition get_999 : Arguments_bag := Some {[ "scenarioId" := JNum (Int 999 I) ]}.

Definition scenario_not_found : Response :=
  not_found (Json (JObj [("message", JStr "Scenario not found")])).

(** The object with executionId abc123 and status success. *)
Definition run_outcome : json :=
  JObj [("executionId", JStr "abc123"); ("status", JStr "success")].

(** run_scenario on scenario 42. *)
Definition run_42 : Arguments_bag := Some {[ "scenarioId" := JNum (Int 42 I) ]}.

(** ** The client methods that no tool exposes *)

(** No handler reaches these methods, so their arguments are the ones the
    signatures declare: numbers and strings, which always convert. *)

Definition getScenarioInterface (this : MakeClient) (scenarioId : number) : Async json :=
  request this "GET" ("/scenarios/" +:+ num_text scenarioId +:+ "/interface") None None.

Definition getConnection (this : MakeClient) (connectionId : number) : Async json :=
  request this "GET" ("/connections/" +:+ num_text connectionId) None None.

Definition deleteConnection (this : MakeClient) (connectionId : number) : Async json :=
  request this "DELETE" ("/connections/" +:+ num_text connectionId) None None.

Definition getHook (this : MakeClient) (hookId : number) : Async json :=
  request this "GET" ("/hooks/" +:+ num_text hookId) None None.

Definition deleteHook (this : MakeClient) (hookId : number) : Async json :=
  request this "DELETE" ("/hooks/" +:+ num_text hookId) None None.

Definition deleteDataStore (this : MakeClient) (dataStoreId : number) : Async json :=
  request this "DELETE" ("/data-stores/" +:+ num_text dataStoreId) None None.

Definition updateDataStoreRecord (this : MakeClient)
    (dataStoreId : number) (recordKey : string) (data : list (string * json))
  : Async json :=
  request this "PUT"
    ("/data-stores/" +:+ num_text dataStoreId +:+ "/data/" +:+ recordKey)
    (Some (JObj data)) None.

(** [Promise<void>]: the parsed body is awaited and dropped. *)
Definition deleteDataStoreRecord (this : MakeClient)
    (dataStoreId : number) (recordKey : string) : Async unit :=
  _ <- request this "DELETE"
         ("/data-stores/" +:+ num_text dataStoreId +:+ "/data/" +:+ recordKey)
         None None ;;;
  ret tt.

Definition getTeam (this : MakeClient) (teamId : number) : Async json :=
  request this "GET" ("/teams/" +:+ num_text teamId) None None.

Definition getOrganization (this : MakeClient) (organizationId : number) : Async json :=
  request this "GET" ("/organizations/" +:+ num_text organizationId) None None.

(** ** api/mcp.ts, second file: tools registered with zod schemas *)

Inductive ZodType : Type :=
  | ZNumber
  | ZString
  | ZBoolean
  | ZRecordUnknown.

Record ZodField : Type := mkZodField {
  field_name : string;
  field_type : ZodType;
  field_optional : bool;
}.

(** One [server.tool(name, description, shape, callback)]. The callback
    receives the parsed arguments object and reads [args.key]. *)
Record Registration : Type := mkRegistration {
  reg_name : string;
  reg_description : string;
  reg_shape : list ZodField;
  reg_callback : MakeClient -> gmap string json -> Async CallToolResult;
}.

Definition znum (name : string) : ZodField :=
  {| field_name := name; field_type := ZNumber; field_optional := false |}.
Definition znum_opt (name : string) : ZodField :=
  {| field_name := name; field_type := ZNumber; field_optional := true |}.
Definition zstr (name : string) : ZodField :=
  {| field_name := name; field_type := ZString; field_optional := false |}.
Definition zstr_opt (name : string) : ZodField :=
  {| field_name := name; field_type := ZString; field_optional := true |}.
Definition zbool_opt (name : string) : ZodField :=
  {| field_name := name; field_type := ZBoolean; field_optional := true |}.
Definition zrecord (name : string) : ZodField :=
  {| field_name := name; field_type := ZRecordUnknown; field_optional := false |}.
Definition zrecord_opt (name : string) : ZodField :=
  {| field_name := name; field_type := ZRecordUnknown; field_optional := true |}.

Module ApiMcpZod.

Definition registrations : list Registration := [
  {| reg_name := "list_scenarios";
     reg_description := "List all scenarios for a team or organization";
     reg_shape := [ znum_opt "teamId"; znum_opt "organizationId";
                    znum_opt "limit"; znum_opt "offset" ];
     reg_callback := fun client args =>
       result <- listScenarios client (args !! "teamId") (args !! "organizationId")
                   (Some {| limit := args !! "limit"; offset := args !! "offset";
                            sortBy := None; sortDir := None |}) ;;;
       ret (text_result result) |};
  {| reg_name := "get_scenario";
     reg_description := "Get details of a specific scenario";
     reg_shape := [ znum "scenarioId" ];
     reg_callback := fun client args =>
       result <- getScenario client (args !! "scenarioId") ;;;
       ret (text_result result) |};
  {| reg_name := "create_scenario";
     reg_description := "Create a new scenario with a blueprint";
     reg_shape := [ znum "teamId"; zstr "blueprint"; zstr "scheduling";
                    znum_opt "folderId" ];
     reg_callback := fun client args =>
       result <- createScenario client
                   (Some (object_literal [("teamId", args !! "teamId");
                                          ("blueprint", args !! "blueprint");
                                          ("scheduling", args !! "scheduling");
                                          ("folderId", args !! "folderId")])) ;;;
       ret (text_result result) |};
  {| reg_name := "update_scenario";
     reg_description := "Update an existing scenario";
     reg_shape := [ znum "scenarioId"; zstr_opt "name"; zstr_opt "blueprint";
                    zstr_opt "scheduling"; znum_opt "folderId" ];
     reg_callback := fun client args =>
       result <- updateScenario client (args !! "scenarioId")
                   (Some (object_literal [("name", args !! "name");
                                          ("blueprint", args !! "blueprint");
                                          ("scheduling", args !! "scheduling");
                                          ("folderId", args !! "folderId")])) ;;;
       ret (text_result result) |};
  {| reg_name := "delete_scenario";
     reg_description := "Delete a scenario permanently";
     reg_shape := [ znum "scenarioId" ];
     reg_callback := fun client args =>
       result <- deleteScenario client (args !! "scenarioId") ;;;
       ret (text_result result) |};
  {| reg_name := "activate_scenario";
     reg_description := "Activate a scenario";
     reg_shape := [ znum "scenarioId" ];
     reg_callback := fun client args =>
       result <- activateScenario client (args !! "scenarioId") ;;;
       ret (text_result result) |};
  {| reg_name := "deactivate_scenario";
     reg_description := "Deactivate a scenario";
     reg_shape := [ znum "scenarioId" ];
     reg_callback := fun client args =>
       result <- deactivateScenario client (args !! "scenarioId") ;;;
       ret (text_result result) |};
  {| reg_name := "run_scenario";
     reg_description := "Run a scenario immediately";
     reg_shape := [ znum "scenarioId"; zrecord_opt "data"; zbool_opt "responsive" ];
     reg_callback := fun client args =>
       result <- runScenario client (args !! "scenarioId")
                   (Some (object_literal [("data", args !! "data");
                                          ("responsive", args !! "responsive")])) ;;;
       ret (text_result result) |};
  {| reg_name := "clone_scenario";
     reg_description := "Clone/duplicate a scenario";
     reg_shape := [ znum "scenarioId"; zstr "name"; znum "teamId";
                    znum "organizationId" ];
     reg_callback := fun client args =>
       result <- cloneScenario client (args !! "scenarioId") (args !! "name")
                   (args !! "teamId") (args !! "organizationId") None ;;;
       ret (text_result result) |};
  {| reg_name := "get_scenario_blueprint";
     reg_description := "Get the full blueprint of a scenario";
     reg_shape := [ znum "scenarioId" ];
     reg_callback := fun client args =>
       result <- getScenarioBlueprint client (args !! "scenarioId") ;;;
       ret (text_result result) |};
  {| reg_name := "get_scenario_logs";
     reg_description := "Get execution logs for a scenario";
     reg_shape := [ znum "scenarioId"; znum_opt "limit" ];
     reg_callback := fun client args =>
       result <- getScenarioLogs client (args !! "scenarioId")
                   (Some {| limit := args !! "limit"; offset := None;
                            sortBy := None; sortDir := None |}) ;;;
       ret (text_result result) |};
  {| reg_name := "list_connections";
     reg_description := "List all connections for a team";
     reg_shape := [ znum "teamId"; znum_opt "limit" ];
     reg_callback := fun client args =>
       result <- listConnections client (args !! "teamId")
                   (Some {| limit := args !! "limit"; offset := None;
                            sortBy := None; sortDir := None |}) ;;;
       ret (text_result result) |};
  {| reg_name := "list_hooks";
     reg_description := "List all webhooks for a team";
     reg_shape := [ znum "teamId"; znum_opt "limit" ];
     reg_callback := fun client args =>
       result <- listHooks client (args !! "teamId")
                   (Some {| limit := args !! "limit"; offset := None;
                            sortBy := None; sortDir := None |}) ;;;
       ret (text_result result) |};
  {| reg_name := "list_data_stores";
     reg_description := "List all data stores for a team";
     reg_shape := [ znum "teamId"; znum_opt "limit" ];
     reg_callback := fun client args =>
       result <- listDataStores client (args !! "teamId")
                   (Some {| limit := args !! "limit"; offset := None;
                            sortBy := None; sortDir := None |}) ;;;
       ret (text_result result) |};
  {| reg_name := "get_data_store";
     reg_description := "Get details of a data store";
     reg_shape := [ znum "dataStoreId" ];
     reg_callback := fun client args =>
       result <- getDataStore client (args !! "dataStoreId") ;;;
       ret (text_result result) |};
  {| reg_name := "create_data_store";
     reg_description := "Create a new data store";
     reg_shape := [ znum "teamId"; zstr "name"; znum_opt "maxSize" ];
     reg_callback := fun client args =>
       result <- createDataStore client (args !! "teamId") (args !! "name")
                   (args !! "maxSize") None ;;;
       ret (text_result result) |};
  {| reg_name := "list_data_store_records";
     reg_description := "List records in a data store";
     reg_shape := [ znum "dataStoreId"; znum_opt "limit" ];
     reg_callback := fun client args =>
       result <- listDataStoreRecords client (args !! "dataStoreId")
                   (Some {| limit := args !! "limit"; offset := None;
                            sortBy := None; sortDir := None |}) ;;;
       ret (text_result result) |};
  {| reg_name := "create_data_store_record";
     reg_description := "Create a record in a data store";
     reg_shape := [ znum "dataStoreId"; zrecord "data" ];
     reg_callback := fun client args =>
       result <- createDataStoreRecord client (args !! "dataStoreId")
                   (args !! "data") ;;;
       ret (text_result result) |};
  {| reg_name := "list_teams";
     reg_description := "List all teams in an organization";
     reg_shape := [ znum "organizationId"; znum_opt "limit" ];
     reg_callback := fun client args =>
       result <- listTeams client (args !! "organizationId")
                   (Some {| limit := args !! "limit"; offset := None;
                            sortBy := None; sortDir := None |}) ;;;
       ret (text_result result) |};
  {| reg_name := "list_organizations";
     reg_description := "List all organizations the user has access to";
     reg_shape := [ znum_opt "limit" ];
     reg_callback := fun client args =>
       result <- listOrganizations client
                   (Some {| limit := args !! "limit"; offset := None;
                            sortBy := None; sortDir := None |}) ;;;
       ret (text_result result) |};
  {| reg_name := "get_current_user";
     reg_description := "Get information about the authenticated user";
     reg_shape := [];
     reg_callback := fun client args =>
       result <- getCurrentUser client ;;;
       ret (text_result result) |}
].

End ApiMcpZod.

(** ** Vocabulary of the further statements *)

(** The bytes a serialized name or value is made of: the plain ones, [+]
    and the percent sign with its two digits. *)
Definition urlencoded_output (c : ascii) : bool :=
  let n := N_of_ascii c in
  urlencoded_plain n || (n =? 43)%N || (n =? 37)%N.

Definition hex_value (c : ascii) : N :=
  let n := N_of_ascii c in
  if (n <? 58)%N then (n - 48)%N
  else if (n <? 97)%N then (n - 55)%N
  else (n - 87)%N.

(** The inverse of [urlencode], as the urlencoded parser decodes a name or
    a value; it serves to state the round trip. *)
Fixpoint urldecode (s : string) : string :=
  match s with
  | EmptyString => EmptyString
  | String c rest =>
      if (N_of_ascii c =? 43)%N then String " " (urldecode rest)
      else if (N_of_ascii c =? 37)%N then
        match rest with
        | String h (String l rest') =>
            String (ascii_of_N (16 * hex_value h + hex_value l)) (urldecode rest')
        | _ => String c (urldecode rest)
        end
      else String c (urldecode rest)
  end.

(** The inverse of [quote_body], as a JSON parser reads the inside of a
    string literal; it serves to state the round trip. *)
Fixpoint unquote_body (s : string) : string :=
  match s with
  | EmptyString => EmptyString
  | String c rest =>
      if (N_of_ascii c =? 92)%N then
        match rest with
        | String e rest' =>
            let n := N_of_ascii e in
            if (n =? 117)%N then
              match rest' with
              | String _ (String _ (String h (String l rest''))) =>
                  String (ascii_of_N (16 * hex_value h + hex_value l))
                         (unquote_body rest'')
              | _ => String c (unquote_body rest)
              end
            else if (n =? 98)%N then String "008" (unquote_body rest')
            else if (n =? 102)%N then String "012" (unquote_body rest')
            else if (n =? 110)%N then String "010" (unquote_body rest')
            else if (n =? 114)%N then String "013" (unquote_body rest')
            else if (n =? 116)%N then String "009" (unquote_body rest')
            else String e (unquote_body rest')
        | EmptyString => String c EmptyString
        end
      else String c (unquote_body rest)
  end.

(** The tools of src/index.ts that only read. *)
Definition read_only_tools : list string :=
  [ "list_scenarios"; "get_scenario"; "get_scenario_blueprint";
    "get_scenario_logs"; "list_connections"; "list_hooks"; "list_data_stores";
    "get_data_store"; "list_data_store_records"; "list_teams";
    "list_organizations"; "get_current_user" ].

(** A byte that is no control character. *)
Definition printable (c : ascii) : bool := (32 <=? N_of_ascii c)%N.

(** Sample responses and remotes for the closed statements. *)
Definition structured_error : Response :=
  {| res_status := 422; res_statusText := "Unprocessable Entity";
     res_json := Json (JObj [("message", JObj [("code", JStr "IM007")])]) |}.

Definition bad_gateway : Response :=
  {| res_status := 502; res_statusText := "Bad Gateway";
     res_json := NotJson "Unexpected token '<'" |}.

Definition no_content : Response :=
  {| res_status := 204; res_statusText := "No Content";
     res_json := NotJson "Unexpected end of JSON input" |}.

(** A remote that knows one scenario and is out of reach for the rest. *)
Definition only_scenario_999 : Remote :=
  fun req =>
    if String.eqb (req_url req) "https://eu1.make.com/api/v2/scenarios/999"
    then Responded scenario_not_found
    else NetworkFailure "fetch failed".

(** The fields of a shape that are not optional. *)
Definition shape_required (shape : list ZodField) : list string :=
  map field_name (List.filter (fun f => negb (field_optional f)) shape).


(** The message the constructor of [MakeApiError] computes when the
    detail can be converted. *)
Definition api_error_message (statusCode : Z) (statusText : string) (detail : jsval)
  : string :=
  "Make API Error " +:+ pretty statusCode +:+ ": " +:+ statusText
    +:+ (if truthy detail then " - " +:+ text_opt detail else "").

(** Every argument of the bag can be converted to a string. *)
Definition all_args_convert (args : Arguments_bag) : Prop :=
  forall key, converts_opt (arg args key) = true.
(** ** Strings *)

(** Let [simpl] compute string concatenation on literals. *)
#[local] Arguments String.append !s1 s2 : simpl nomatch.

Lemma append_assoc (a b c : string) : (a +:+ b) +:+ c = a +:+ (b +:+ c).
Proof. induction a as [|x a IH]; simpl; [reflexivity | now f_equal]. Qed.

Lemma append_nil_r (a : string) : a +:+ "" = a.
Proof. induction a as [|x a IH]; simpl; [reflexivity | now f_equal]. Qed.

Lemma append_cons_not_nil (a b : string) (x : ascii) : a +:+ String x b <> "".
Proof. destruct a; discriminate. Qed.

Lemma append_not_nil_l (a b : string) : a <> "" -> a +:+ b <> "".
Proof. destruct a; [congruence | discriminate]. Qed.

Lemma prefix_refl_app (p q : string) : String.prefix p (p +:+ q) = true.
Proof.
  induction p as [|x p IH]; simpl.
  - now destruct q.
  - destruct (ascii_dec x x); [exact IH | congruence].
Qed.

Lemma includes_here (sub post : string) : includes sub (sub +:+ post) = true.
Proof.
  assert (forall s, String.prefix sub s = true -> includes sub s = true) as H.
  { intros [|x s] Hs; unfold includes; fold includes; now rewrite Hs. }
  apply H, prefix_refl_app.
Qed.

Lemma includes_app (pre sub post : string) :
  includes sub (pre +:+ sub +:+ post) = true.
Proof.
  induction pre as [|x pre IH]; simpl.
  - apply includes_here.
  - rewrite IH. apply orb_true_r.
Qed.

Lemma includes_end (pre sub : string) : includes sub (pre +:+ sub) = true.
Proof. rewrite <- (append_nil_r sub) at 2. apply includes_app. Qed.

Lemma string_forall_app (p : ascii -> bool) (a b : string) :
  string_forall p (a +:+ b) = string_forall p a && string_forall p b.
Proof.
  induction a as [|x a IH]; simpl; [reflexivity|].
  now rewrite IH, andb_assoc.
Qed.

Lemma count_byte_app (c : ascii) (a b : string) :
  count_byte c (a +:+ b) = (count_byte c a + count_byte c b)%nat.
Proof.
  induction a as [|x a IH]; simpl; [reflexivity|].
  rewrite IH. apply Nat.add_assoc.
Qed.

Lemma forall_excludes_byte (p : ascii -> bool) (c : ascii) (s : string) :
  p c = false -> string_forall p s = true -> count_byte c s = 0%nat.
Proof.
  intros Hc. induction s as [|x s IH]; simpl; [reflexivity|].
  intros [Hx Hs]%andb_true_iff. rewrite IH by exact Hs.
  destruct (Ascii.eqb_spec x c) as [->|_]; [congruence | reflexivity].
Qed.

Ltac each_byte c := destruct c as [[] [] [] [] [] [] [] []]; vm_compute; reflexivity.

(** ** Numbers *)

Lemma number_text_ok (n : number) : number_text (num_text n) = true.
Proof. destruct n as [t wf]; simpl. now destruct (number_text t). Qed.

Lemma num_text_chars (n : number) : string_forall number_char (num_text n) = true.
Proof.
  pose proof (number_text_ok n) as H. unfold number_text in H.
  now apply andb_true_iff in H.
Qed.

Lemma num_text_not_nil (n : number) : num_text n <> "".
Proof.
  pose proof (number_text_ok n) as H. unfold number_text in H.
  apply andb_true_iff in H as [_ H]. intros E. rewrite E in H. discriminate.
Qed.

Lemma num_text_no_mark (n : number) :
  count_byte "?" (num_text n) = 0%nat /\ count_byte "#" (num_text n) = 0%nat.
Proof.
  split; apply (forall_excludes_byte number_char);
    solve [reflexivity | apply num_text_chars].
Qed.

Lemma pretty_N_go_not_nil (x : N) (s : string) : s <> "" -> pretty_N_go x s <> "".
Proof.
  revert s. induction (N.lt_wf_0 x) as [x _ IH]; intros s Hs.
  destruct (N.eq_dec x 0%N) as [->|Hx].
  - now rewrite pretty_N_go_0.
  - rewrite pretty_N_go_step by lia.
    apply IH; [apply N.div_lt; lia | discriminate].
Qed.

Lemma pretty_Z_not_nil (n : Z) : pretty n <> "".
Proof.
  assert (forall p : positive, pretty (N.pos p) <> "") as Hpos.
  { intros p. unfold pretty, pretty_N.
    destruct (decide (N.pos p = 0%N)) as [|_]; [discriminate|].
    rewrite pretty_N_go_step by lia.
    apply pretty_N_go_not_nil. discriminate. }
  destruct n as [|p|p]; unfold pretty, pretty_Z.
  - discriminate.
  - apply Hpos.
  - discriminate.
Qed.

Lemma SerializeJSON_not_nil (gap indent : string) (v : json) :
  SerializeJSON gap indent v <> "".
Proof.
  destruct v as [|[]|n|s|items|props]; simpl; try discriminate.
  - destruct (num_finite n); [apply num_text_not_nil | discriminate].
  - destruct (map _ items); [discriminate|].
    destruct (String.eqb gap ""); discriminate.
  - destruct (map _ props); [discriminate|].
    destruct (String.eqb gap ""); discriminate.
Qed.

(** ** Conversions to string *)

Lemma ToString_spec (v : json) :
  ToString v = if converts v then Fulfilled (text_of v)
               else Rejected (TypeError cannot_convert).
Proof. reflexivity. Qed.

Lemma String__spec (v : jsval) :
  String_ v = if converts_opt v then Fulfilled (text_opt v)
              else Rejected (TypeError cannot_convert).
Proof. destruct v; reflexivity. Qed.

(** ** The generic request operation *)

Lemma collect_params_from (entries : QueryParams) (acc : URLSearchParams) :
  fold_left
    (fun collected kv =>
       and_then collected
         (fun params =>
            match kv.2 with
            | Some value =>
                and_then (ToString value)
                  (fun text => Fulfilled (params_append params kv.1 text))
            | None => Fulfilled params
            end))
    entries (Fulfilled acc)
  = if all_convert entries then Fulfilled (acc ++ defined_entries entries)
    else Rejected (TypeError cannot_convert).
Proof.
  assert (forall l e,
            fold_left
              (fun collected kv =>
                 and_then collected
                   (fun params =>
                      match kv.2 with
                      | Some value =>
                          and_then (ToString value)
                            (fun text => Fulfilled (params_append params kv.1 text))
                      | None => Fulfilled params
                      end))
              l (Rejected e) = Rejected e) as Hstuck.
  { induction l as [|kv l IH]; intros e; [reflexivity | apply IH]. }
  revert acc. induction entries as [|[k [v|]] entries IH]; intros acc.
  - simpl. now rewrite app_nil_r.
  - cbn [fold_left and_then snd fst all_convert forallb converts_opt].
    rewrite ToString_spec. destruct (converts v); cbn [and_then andb].
    + rewrite IH. unfold params_append.
      change (all_convert entries) with (forallb (fun kv => converts_opt kv.2) entries).
      destruct (forallb _ entries); [|reflexivity].
      simpl. now rewrite <- app_assoc.
    + apply Hstuck.
  - cbn [fold_left and_then snd fst all_convert forallb converts_opt andb].
    apply IH.
Qed.

Lemma collect_params_spec (entries : QueryParams) :
  collect_params entries
  = if all_convert entries then Fulfilled (defined_entries entries)
    else Rejected (TypeError cannot_convert).
Proof. unfold collect_params. now rewrite collect_params_from. Qed.

Lemma params_toString_nil (params : URLSearchParams) :
  params_toString params = "" <-> params = [].
Proof.
  split; [|intros ->; reflexivity].
  destruct params as [|[k v] rest]; [reflexivity|].
  unfold params_toString; simpl. intros H. exfalso. revert H.
  destruct (map _ rest); simpl.
  - apply append_cons_not_nil.
  - apply append_not_nil_l, append_cons_not_nil.
Qed.

Lemma build_url_spec (this : MakeClient) (path : string) (entries : QueryParams) :
  build_url this path (Some entries)
  = if all_convert entries
    then Fulfilled (url_of this path (defined_entries entries))
    else Rejected (TypeError cannot_convert).
Proof.
  unfold build_url, url_of. rewrite collect_params_spec.
  destruct (all_convert entries); [|reflexivity]. cbn [and_then]. f_equal.
  destruct (String.eqb_spec (params_toString (defined_entries entries)) "") as [E|E].
  - apply params_toString_nil in E. now rewrite E.
  - simpl. destruct (defined_entries entries); [now elim E | reflexivity].
Qed.

Lemma build_url_ok (this : MakeClient) (path : string)
    (queryParams : option QueryParams) :
  url_ok this (build_url this path queryParams).
Proof.
  destruct queryParams as [entries|]; [|apply prefix_refl_app].
  rewrite build_url_spec. destruct (all_convert entries); [|reflexivity].
  unfold url_ok, url_of. destruct (defined_entries entries).
  - apply prefix_refl_app.
  - rewrite append_assoc. apply prefix_refl_app.
Qed.

Lemma via_id_ok (this : MakeClient) (x : jsval) (f : string -> string)
    (queryParams : option QueryParams) :
  url_ok this (and_then (String_ x) (fun id => build_url this (f id) queryParams)).
Proof.
  rewrite String__spec. destruct (converts_opt x); [|reflexivity].
  apply build_url_ok.
Qed.

(** [exchange] issues exactly one request and settles on its answer. *)
Lemma exchange_run (this : MakeClient) (method url : string) (body : jsval)
    (w : Remote) :
  exchange this method url body w
  = ([the_request this method url body],
     answer (w (the_request this method url body))).
Proof.
  unfold exchange, bind, fetch, lift, throw, answer, the_request.
  destruct (w _) as [r|msg]; [|reflexivity].
  destruct (res_ok r); cbn [negb]; [reflexivity|].
  destruct (new_MakeApiError _ _ _); reflexivity.
Qed.

Lemma send_run (this : MakeClient) (method : string) (url : Outcome string)
    (body : jsval) (w : Remote) :
  send this method url body w
  = match url with
    | Fulfilled u =>
        ([the_request this method u body],
         answer (w (the_request this method u body)))
    | Rejected e => ([], Rejected e)
    end.
Proof.
  unfold send, bind, lift. destruct url as [u|e]; [|reflexivity].
  now rewrite exchange_run.
Qed.

Lemma request_run (this : MakeClient) (method path : string) (body : jsval)
    (queryParams : option QueryParams) (w : Remote) :
  request this method path body queryParams w
  = send this method (build_url this path queryParams) body w.
Proof. reflexivity. Qed.

Lemma via_id (this : MakeClient) (method : string) (o : Outcome string)
    (f : string -> string) (body : jsval) (queryParams : option QueryParams)
    (w : Remote) :
  bind (lift o) (fun id => request this method (f id) body queryParams) w
  = send this method (and_then o (fun id => build_url this (f id) queryParams)) body w.
Proof.
  destruct o as [id|e]; [|reflexivity].
  cbn [and_then]. rewrite <- request_run. unfold bind at 1, lift.
  now destruct (request this method (f id) body queryParams w).
Qed.

Lemma request_urls (this : MakeClient) (method path : string) (body : jsval)
    (queryParams : option QueryParams) (w : Remote) :
  urls (request this method path body queryParams) w
  = match build_url this path queryParams with
    | Fulfilled u => [u]
    | Rejected _ => []
    end.
Proof.
  unfold urls. rewrite request_run, send_run.
  now destruct (build_url this path queryParams).
Qed.

(** ** The query string of a URL *)

Lemma up_to_absent (c : ascii) (s : string) :
  count_byte c s = 0%nat -> up_to c s = s.
Proof.
  induction s as [|x s IH]; simpl; [reflexivity|].
  destruct (Ascii.eqb x c); [discriminate|].
  intros H. now rewrite IH.
Qed.

Lemma after_first_absent (c : ascii) (s : string) :
  count_byte c s = 0%nat -> after_first c s = None.
Proof.
  induction s as [|x s IH]; simpl; [reflexivity|].
  destruct (Ascii.eqb x c); [discriminate | exact IH].
Qed.

Lemma after_first_app (c : ascii) (a q : string) :
  count_byte c a = 0%nat -> after_first c (a +:+ String c q) = Some q.
Proof.
  induction a as [|x a IH]; simpl.
  - now rewrite Ascii.eqb_refl.
  - destruct (Ascii.eqb x c); [discriminate | exact IH].
Qed.

Lemma url_query_none (a : string) :
  count_byte "?" a = 0%nat -> count_byte "#" a = 0%nat -> url_query a = None.
Proof.
  intros Hq Hh. unfold url_query. rewrite up_to_absent by exact Hh.
  now apply after_first_absent.
Qed.

Lemma url_query_some (a q : string) :
  count_byte "?" a = 0%nat -> count_byte "#" a = 0%nat ->
  count_byte "#" q = 0%nat ->
  url_query (a +:+ "?" +:+ q) = Some q.
Proof.
  intros Hq Hh Hhq. unfold url_query. rewrite up_to_absent.
  - now apply after_first_app.
  - rewrite count_byte_app. simpl. rewrite Hh, Hhq. reflexivity.
Qed.

Lemma urlencode_byte_output (c : ascii) :
  string_forall urlencoded_output (urlencode_byte c) = true.
Proof. each_byte c. Qed.

Lemma urlencode_plain (s : string) :
  string_forall urlencoded_output (urlencode s) = true.
Proof.
  induction s as [|c s IH]; simpl; [reflexivity|].
  now rewrite string_forall_app, urlencode_byte_output, IH.
Qed.

Lemma pair_counts (c : ascii) (kv : string * string) :
  urlencoded_output c = false ->
  count_byte c (urlencode kv.1 +:+ "=" +:+ urlencode kv.2)
  = count_byte c "=".
Proof.
  intros Hc. rewrite !count_byte_app.
  rewrite (forall_excludes_byte urlencoded_output c (urlencode kv.1) Hc (urlencode_plain _)).
  rewrite (forall_excludes_byte urlencoded_output c (urlencode kv.2) Hc (urlencode_plain _)).
  lia.
Qed.

Lemma params_toString_counts (c : ascii) (params : URLSearchParams) :
  urlencoded_output c = false ->
  count_byte c (params_toString params)
  = (length params * count_byte c "=" + pred (length params) * count_byte c "&")%nat.
Proof.
  intros Hc. unfold params_toString.
  induction params as [|kv params IH]; [reflexivity|].
  destruct params as [|kv' params].
  - change (count_byte c (urlencode kv.1 +:+ "=" +:+ urlencode kv.2)
            = (1 * count_byte c "=" + 0 * count_byte c "&")%nat).
    rewrite pair_counts by exact Hc. lia.
  - change (count_byte c
              ((urlencode kv.1 +:+ "=" +:+ urlencode kv.2)
                 +:+ "&"
                 +:+ String.concat "&"
                       (map (fun kv => urlencode kv.1 +:+ "=" +:+ urlencode kv.2)
                            (kv' :: params)))
            = (length (kv :: kv' :: params) * count_byte c "="
               + pred (length (kv :: kv' :: params)) * count_byte c "&")%nat).
    rewrite count_byte_app, pair_counts by exact Hc.
    rewrite count_byte_app, IH. simpl length. simpl pred. lia.
Qed.

Lemma params_toString_no_hash (params : URLSearchParams) :
  count_byte "#" (params_toString params) = 0%nat.
Proof.
  rewrite (params_toString_counts "#") by reflexivity.
  change (count_byte "#" "=") with 0%nat. change (count_byte "#" "&") with 0%nat. lia.
Qed.

(** The query string a URL parser finds in a URL built by [request] is
    the serialized pairs, as long as neither the base URL nor the path
    holds a question mark or a hash. *)
Lemma url_query_of (this : MakeClient) (path : string) (sent : URLSearchParams) :
  count_byte "?" (baseUrl this +:+ path) = 0%nat ->
  count_byte "#" (baseUrl this +:+ path) = 0%nat ->
  url_query (url_of this path sent)
  = match sent with
    | [] => None
    | _ => Some (params_toString sent)
    end.
Proof.
  intros Hq Hh. unfold url_of. destruct sent as [|kv sent].
  - now apply url_query_none.
  - apply url_query_some; [exact Hq | exact Hh | apply params_toString_no_hash].
Qed.

Lemma all_convert_primitive (entries : QueryParams) :
  Forall (fun kv => match kv.2 with
                    | Some (JArr _) | Some (JObj _) => False
                    | _ => True
                    end) entries ->
  all_convert entries = true.
Proof.
  induction 1 as [|[k [v|]] entries Hv _ IH]; simpl; [reflexivity| |exact IH].
  rewrite IH, andb_true_r. destruct v; simpl in *; tauto.
Qed.

(** C4. The generic request operation leaves a query parameter out of the
    URL exactly when its value is undefined; every defined value that
    String can convert (every string, number and boolean, so also 0, false
    and the empty string) is encoded. The URL is the base URL, then the
    path, then, when at least one parameter is encoded, a question mark
    and the encoded query string. A defined value that String cannot
    convert makes the operation throw before any request is issued. *)
Theorem request_url_keeps_defined_values
    (this : MakeClient) (method path : string) (body : jsval) (w : Remote) :
  urls (request this method path body None) w = [ baseUrl this +:+ path ]
  /\ (forall entries : QueryParams,
        all_convert entries = true ->
        urls (request this method path body (Some entries)) w
        = [ match defined_entries entries with
            | [] => baseUrl this +:+ path
            | sent =>
                (baseUrl this +:+ path) +:+ "?"
                  +:+ String.concat "&"
                        (map (fun kv => urlencode kv.1 +:+ "=" +:+ urlencode kv.2) sent)
            end ]
        /\ forall key value,
             In (key, value) (defined_entries entries)
             <-> exists v, In (key, Some v) entries /\ value = text_of v)
  /\ (forall entries : QueryParams,
        all_convert entries = false ->
        exists msg,
          request this method path body (Some entries) w
          = ([], Rejected (TypeError msg)))
  /\ (forall entries : QueryParams,
        Forall (fun kv => match kv.2 with
                          | Some (JArr _) | Some (JObj _) => False
                          | _ => True
                          end) entries ->
        all_convert entries = true)
  /\ (forall k0 k1 k2 k3,
        defined_entries [(k0, Some (JNum (Int 0 I))); (k1, None);
                         (k2, Some (JBool false)); (k3, Some (JStr ""))]
        = [(k0, "0"); (k2, "false"); (k3, "")]).
Proof.
  split; [now rewrite request_urls|].
  split; [|split; [|split; [apply all_convert_primitive | reflexivity]]].
  - intros entries Hconv. split.
    + rewrite request_urls, build_url_spec, Hconv. unfold url_of, params_toString.
      now destruct (defined_entries entries).
    + intros key value. unfold defined_entries.
      rewrite <- list_elem_of_In, list_elem_of_omap. split.
      * intros [[k [v|]] [Hin Heq]]; simpl in Heq; [|discriminate].
        injection Heq as <- <-. exists v. now rewrite <- list_elem_of_In.
      * intros [v [Hin ->]]. exists (key, Some v).
        now rewrite list_elem_of_In.
  - intros entries Hconv. exists cannot_convert.
    now rewrite request_run, send_run, build_url_spec, Hconv.
Qed.

Lemma request_url_keeps_defined_values_witness :
  urls (request sample_client "GET" "/connections" None
          (Some [("teamId", Some (JNum (Int 0 I))); ("pg[limit]", None);
                 ("active", Some (JBool false)); ("name", Some (JStr ""));
                 ("ids", Some (JArr [JNum (Int 1 I); JNull; JStr "a"]))]))
       unreachable
  = [ "https://eu1.make.com/api/v2/connections?teamId=0&active=false&name=&ids=1%2C%2Ca" ]
  /\ (exists msg,
        request sample_client "GET" "/connections" None
          (Some [("teamId", Some (JObj [("toString", JNum (Int 1 I))]))]) unreachable
        = ([], Rejected (TypeError msg))).
Proof.
  destruct (request_url_keeps_defined_values sample_client "GET" "/connections"
              None unreachable) as (_ & Hsent & Hthrown & _).
  split.
  - exact (proj1 (Hsent [("teamId", Some (JNum (Int 0 I))); ("pg[limit]", None);
                         ("active", Some (JBool false)); ("name", Some (JStr ""));
                         ("ids", Some (JArr [JNum (Int 1 I); JNull; JStr "a"]))]
                    eq_refl)).
  - exact (Hthrown [("teamId", Some (JObj [("toString", JNum (Int 1 I))]))] eq_refl).
Defined.

(** C8. Every call of createScenario and of updateScenario that issues a
    request sets the fixed flag: the query string of the URL is
    confirmed=true. updateScenario issues its request whenever the
    scenario identifier can be converted to a string, as every number
    can, and the query string is the flag whenever that text holds no
    question mark and no hash, as no number's does. *)
Theorem scenario_mutations_are_confirmed
    (this : MakeClient) (scenarioId params : jsval) (w : Remote) :
  count_byte "?" (baseUrl this) = 0%nat ->
  count_byte "#" (baseUrl this) = 0%nat ->
  (urls (createScenario this params) w
   = [ (baseUrl this +:+ "/scenarios") +:+ "?confirmed=true" ]
   /\ url_query ((baseUrl this +:+ "/scenarios") +:+ "?confirmed=true")
      = Some "confirmed=true")
  /\ (converts_opt scenarioId = true ->
      count_byte "?" (text_opt scenarioId) = 0%nat ->
      count_byte "#" (text_opt scenarioId) = 0%nat ->
      urls (updateScenario this scenarioId params) w
      = [ (baseUrl this +:+ "/scenarios/" +:+ text_opt scenarioId)
            +:+ "?confirmed=true" ]
      /\ url_query ((baseUrl this +:+ "/scenarios/" +:+ text_opt scenarioId)
                      +:+ "?confirmed=true")
         = Some "confirmed=true")
  /\ (forall n : number,
        converts_opt (Some (JNum n)) = true
        /\ count_byte "?" (text_opt (Some (JNum n))) = 0%nat
        /\ count_byte "#" (text_opt (Some (JNum n))) = 0%nat)
  /\ (forall req, In req (updateScenario this scenarioId params w).1 ->
        count_byte "?" (text_opt scenarioId) = 0%nat ->
        count_byte "#" (text_opt scenarioId) = 0%nat ->
        url_query (req_url req) = Some "confirmed=true").
Proof.
  intros Hq Hh.
  assert (forall path,
            count_byte "?" path = 0%nat -> count_byte "#" path = 0%nat ->
            url_query ((baseUrl this +:+ path) +:+ "?confirmed=true")
            = Some "confirmed=true") as Hquery.
  { intros path Hpq Hph. apply url_query_some.
    - rewrite count_byte_app. now rewrite Hq, Hpq.
    - rewrite count_byte_app. now rewrite Hh, Hph.
    - reflexivity. }
  assert (forall id,
            count_byte "?" id = 0%nat -> count_byte "#" id = 0%nat ->
            url_query ((baseUrl this +:+ "/scenarios/" +:+ id) +:+ "?confirmed=true")
            = Some "confirmed=true") as Hid.
  { intros id Hiq Hih. apply Hquery; rewrite count_byte_app; simpl; assumption. }
  split; [|split; [|split]].
  - split; [|now apply Hquery].
    unfold createScenario. rewrite request_urls, build_url_spec. reflexivity.
  - intros Hconv Hiq Hih. split; [|now apply Hid].
    unfold updateScenario, urls. rewrite via_id, send_run, String__spec, Hconv.
    cbn [and_then]. rewrite build_url_spec. reflexivity.
  - intros n. split; [reflexivity|]. apply num_text_no_mark.
  - intros req Hreq Hiq Hih. unfold updateScenario in Hreq.
    rewrite via_id, send_run, String__spec in Hreq.
    destruct (converts_opt scenarioId); cbn [and_then] in Hreq; [|contradiction].
    rewrite build_url_spec in Hreq.
    cbn [all_convert forallb converts_opt converts snd andb] in Hreq.
    destruct Hreq as [<-|[]]. now apply Hid.
Qed.

Lemma scenario_mutations_are_confirmed_witness :
  urls (updateScenario sample_client (Some (JNum (Int 42 I))) (Some (JObj [])))
       unreachable
  = [ "https://eu1.make.com/api/v2/scenarios/42?confirmed=true" ]
  /\ url_query "https://eu1.make.com/api/v2/scenarios/42?confirmed=true"
     = Some "confirmed=true".
Proof.
  destruct (scenario_mutations_are_confirmed sample_client (Some (JNum (Int 42 I)))
              (Some (JObj [])) unreachable eq_refl eq_refl)
    as (_ & Hupdate & _).
  exact (Hupdate eq_refl eq_refl eq_refl).
Defined.

(** ** The listing methods *)

Lemma set_prop_fresh (q : QueryParams) (key : string) (value : jsval) :
  ~ In key (map fst q) -> set_prop q key value = q ++ [(key, value)].
Proof.
  induction q as [|[k v] q IH]; simpl; intros Hfresh; [reflexivity|].
  destruct (String.eqb_spec k key) as [->|_]; [tauto|].
  rewrite IH; tauto.
Qed.

(** A run of [if (value) queryParams[key] = value] lines over fresh keys
    appends the entries whose value is truthy. *)
Lemma add_if_truthy_chain (optional initial : QueryParams) :
  List.NoDup (map fst (initial ++ optional)) ->
  fold_left (fun q kv => add_if_truthy q kv.1 kv.2) optional initial
  = initial ++ truthy_entries optional.
Proof.
  revert initial. induction optional as [|[k v] optional IH]; intros initial Hnd; simpl.
  - now rewrite app_nil_r.
  - assert (~ In k (map fst initial)) as Hfresh.
    { rewrite map_app in Hnd. simpl in Hnd.
      apply NoDup_remove_2 in Hnd. rewrite in_app_iff in Hnd. tauto. }
    unfold add_if_truthy at 2. destruct (truthy v) eqn:Hv.
    + rewrite set_prop_fresh by exact Hfresh.
      rewrite IH by now rewrite <- app_assoc.
      unfold truthy_entries. now rewrite <- app_assoc.
    + rewrite IH.
      * reflexivity.
      * rewrite map_app in *. simpl in Hnd. now apply NoDup_remove_1 in Hnd.
Qed.

Lemma all_convert_app (a b : QueryParams) :
  all_convert (a ++ b) = all_convert a && all_convert b.
Proof. apply forallb_app. Qed.

Lemma all_convert_truthy (entries : QueryParams) :
  all_convert entries = true -> all_convert (truthy_entries entries) = true.
Proof.
  induction entries as [|[k v] entries IH]; simpl; [reflexivity|].
  intros [Hv Hrest]%andb_true_iff. destruct (truthy v); simpl; [|now apply IH].
  now rewrite Hv, IH.
Qed.

Lemma listing_query (this : MakeClient) (path : string)
    (initial optional : QueryParams) :
  List.NoDup (map fst (initial ++ optional)) ->
  all_convert (initial ++ optional) = true ->
  build_url this path
    (Some (fold_left (fun q kv => add_if_truthy q kv.1 kv.2) optional initial))
  = Fulfilled (url_of this path (defined_entries (initial ++ truthy_entries optional))).
Proof.
  intros Hnd Hconv. rewrite add_if_truthy_chain by exact Hnd.
  rewrite build_url_spec, all_convert_app.
  rewrite all_convert_app in Hconv. apply andb_true_iff in Hconv as [Ha Hb].
  now rewrite Ha, all_convert_truthy.
Qed.

Ltac distinct_keys :=
  simpl; repeat (constructor; [simpl; intuition discriminate|]); constructor.

Ltac listing_url Hall :=
  unfold urls;
  try (rewrite via_id, send_run, String__spec;
       match goal with
       | |- context [converts_opt ?x] =>
           replace (converts_opt x) with true by (symmetry; apply Hall; simpl; tauto)
       end; cbn [and_then]);
  try rewrite request_run, send_run;
  match goal with
  | |- context [url_of ?this ?path (defined_entries (?first :: truthy_entries ?optional))] =>
      let E := fresh "E" in
      pose proof (listing_query this path [first] optional) as E;
      cbn [fold_left fst snd] in E; rewrite E; [reflexivity | distinct_keys |]
  | |- context [url_of ?this ?path (defined_entries (truthy_entries ?optional))] =>
      let E := fresh "E" in
      pose proof (listing_query this path [] optional) as E;
      cbn [fold_left fst snd] in E; rewrite E; [reflexivity | distinct_keys |]
  end;
  cbn [all_convert forallb app snd];
  repeat match goal with
         | |- context [converts_opt ?x] =>
             replace (converts_opt x) with true by (symmetry; apply Hall; simpl; tauto)
         end;
  reflexivity.

(** C1, as amended. In every listing method an offset or limit (and, in
    listScenarios, a teamId, organizationId, sortBy or sortDir) is encoded
    into the query string exactly when its value is truthy: an explicit 0
    is left out just as an absent value is (of the numbers, 0 and NaN are
    the ones left out). The identifier a method always
    sends (teamId of listConnections, listHooks and listDataStores,
    organizationId of listTeams) is encoded whenever it is defined, 0
    included. This is for values that String can convert, as every string,
    number and boolean can; the query string of the URL is then the
    serialized pairs as long as base URL and path hold no question mark
    and no hash. *)
Theorem listing_urls_encode_truthy_values
    (this : MakeClient) (w : Remote)
    (teamId organizationId scenarioId dataStoreId : jsval)
    (pagination : option PaginationParams) :
  (forall v,
     In v [teamId; organizationId; scenarioId; dataStoreId;
           pg offset pagination; pg limit pagination;
           pg sortBy pagination; pg sortDir pagination] ->
     converts_opt v = true) ->
  let paging :=
    truthy_entries [("pg[offset]", pg offset pagination);
                    ("pg[limit]", pg limit pagination)] in
  urls (listScenarios this teamId organizationId pagination) w
  = [ url_of this "/scenarios"
        (defined_entries
           (truthy_entries [("teamId", teamId);
                            ("organizationId", organizationId);
                            ("pg[offset]", pg offset pagination);
                            ("pg[limit]", pg limit pagination);
                            ("pg[sortBy]", pg sortBy pagination);
                            ("pg[sortDir]", pg sortDir pagination)])) ]
  /\ urls (listConnections this teamId pagination) w
     = [ url_of this "/connections" (defined_entries (("teamId", teamId) :: paging)) ]
  /\ urls (listHooks this teamId pagination) w
     = [ url_of this "/hooks" (defined_entries (("teamId", teamId) :: paging)) ]
  /\ urls (listDataStores this teamId pagination) w
     = [ url_of this "/data-stores" (defined_entries (("teamId", teamId) :: paging)) ]
  /\ urls (listDataStoreRecords this dataStoreId pagination) w
     = [ url_of this ("/data-stores/" +:+ text_opt dataStoreId +:+ "/data")
           (defined_entries paging) ]
  /\ urls (listTeams this organizationId pagination) w
     = [ url_of this "/teams"
           (defined_entries (("organizationId", organizationId) :: paging)) ]
  /\ urls (listOrganizations this pagination) w
     = [ url_of this "/organizations" (defined_entries paging) ]
  /\ urls (getScenarioLogs this scenarioId pagination) w
     = [ url_of this ("/scenarios/" +:+ text_opt scenarioId +:+ "/logs")
           (defined_entries paging) ]
  /\ (forall (key : string) (n : number),
        truthy_entries [(key, Some (JNum n))]
        = if num_truthy n then [(key, Some (JNum n))] else [])
  /\ (forall n : number,
        num_truthy n = false <-> num_text n = "0" \/ num_text n = "NaN")
  /\ (forall key, truthy_entries [(key, Some (JNum (Int 0 I)))] = [])
  /\ (forall key, truthy_entries [(key, None)] = [])
  /\ (forall path sent,
        count_byte "?" (baseUrl this +:+ path) = 0%nat ->
        count_byte "#" (baseUrl this +:+ path) = 0%nat ->
        url_query (url_of this path sent)
        = match sent with
          | [] => None
          | _ => Some (params_toString sent)
          end).
Proof.
  intros Hall paging. subst paging.
  unfold listScenarios, listConnections, listHooks, listDataStores,
    listDataStoreRecords, listTeams, listOrganizations, getScenarioLogs.
  cbv zeta.
  repeat match goal with |- _ /\ _ => split end;
    try (listing_url Hall); try reflexivity.
  - intros n. unfold num_truthy.
    destruct (String.eqb_spec (num_text n) "0"), (String.eqb_spec (num_text n) "NaN");
      simpl; intuition congruence.
  - apply url_query_of.
Qed.

Lemma listing_urls_encode_truthy_values_witness :
  urls (listConnections sample_client (Some (JNum (Int 0 I)))
          (Some {| offset := Some (JNum (Int 0 I)); limit := Some (JNum (Int 25 I));
                   sortBy := None; sortDir := None |}))
       unreachable
  = [ "https://eu1.make.com/api/v2/connections?teamId=0&pg%5Blimit%5D=25" ].
Proof.
  destruct (listing_urls_encode_truthy_values sample_client unreachable
              (Some (JNum (Int 0 I))) None None None
              (Some {| offset := Some (JNum (Int 0 I)); limit := Some (JNum (Int 25 I));
                       sortBy := None; sortDir := None |}))
    as (_ & Hconnections & _).
  - intros v Hv. simpl in Hv.
    repeat (destruct Hv as [<-|Hv]; [reflexivity|]). contradiction.
  - exact Hconnections.
Defined.

(** C1, as stated, fails: with 0 for teamId, offset and limit, the URL of
    listScenarios has no query string at all, and the URL of
    getScenarioLogs with a limit of 0 has none either. *)
Lemma listing_urls_drop_zero :
  urls (listScenarios sample_client (Some (JNum (Int 0 I))) None
          (Some {| offset := Some (JNum (Int 0 I)); limit := Some (JNum (Int 0 I));
                   sortBy := None; sortDir := None |}))
       (always (ok_with JNull))
  = [ "https://eu1.make.com/api/v2/scenarios" ]
  /\ urls (getScenarioLogs sample_client (Some (JNum (Int 42 I)))
             (Some {| offset := None; limit := Some (JNum (Int 0 I));
                      sortBy := None; sortDir := None |}))
          (always (ok_with JNull))
     = [ "https://eu1.make.com/api/v2/scenarios/42/logs" ]
  /\ includes "pg%5Blimit%5D"
       "https://eu1.make.com/api/v2/scenarios/42/logs" = false.
Proof. split; [|split]; vm_compute; reflexivity. Qed.

(** ** How [request] settles *)

Lemma new_MakeApiError_spec (statusCode : Z) (statusText : string) (detail : jsval) :
  new_MakeApiError statusCode statusText detail
  = if truthy detail && negb (converts_opt detail)
    then Rejected (TypeError cannot_convert)
    else Fulfilled (MakeApiError statusCode statusText detail
                      (api_error_message statusCode statusText detail)).
Proof.
  unfold new_MakeApiError, api_error_message.
  destruct (truthy detail); [|reflexivity].
  rewrite String__spec. now destruct (converts_opt detail).
Qed.

Lemma answer_not_ok (resp : Response) :
  res_ok resp = false ->
  answer (Responded resp)
  = if truthy (error_detail resp) && negb (converts_opt (error_detail resp))
    then Rejected (TypeError cannot_convert)
    else Rejected (MakeApiError (res_status resp) (res_statusText resp)
                     (error_detail resp)
                     (api_error_message (res_status resp) (res_statusText resp)
                        (error_detail resp))).
Proof.
  intros Hok. unfold answer. rewrite Hok, new_MakeApiError_spec.
  now destruct (truthy (error_detail resp) && negb (converts_opt (error_detail resp))).
Qed.

Lemma answer_ok (resp : Response) :
  res_ok resp = true -> answer (Responded resp) = response_json resp.
Proof. intros Hok. unfold answer. now rewrite Hok. Qed.

(** [request] once its URL is built and the remote has answered it. *)
Lemma request_answered (this : MakeClient) (method path : string) (body : jsval)
    (queryParams : option QueryParams) (w : Remote) (url : string) :
  build_url this path queryParams = Fulfilled url ->
  request this method path body queryParams w
  = ([the_request this method url body],
     answer (w (the_request this method url body))).
Proof. intros Hurl. now rewrite request_run, send_run, Hurl. Qed.

(** A detail, when there is one, is truthy: the constructor of
    [MakeApiError] always prints it. *)
Lemma error_detail_truthy (resp : Response) (d : json) :
  error_detail resp = Some d -> truthy_json d = true.
Proof.
  unfold error_detail, response_json.
  destruct (res_json resp) as [errorBody|msg]; [|discriminate].
  destruct (get_prop errorBody "message") as [message|]; [|discriminate].
  destruct (truthy message) eqn:Hm; [now intros -> |].
  destruct (get_prop errorBody "detail") as [detail|]; [|discriminate].
  destruct (truthy detail) eqn:Hd; [now intros -> |].
  intros [= <-]. simpl.
  destruct (String.eqb_spec (JSON_stringify errorBody) "") as [E|_]; [|reflexivity].
  now apply SerializeJSON_not_nil in E.
Qed.

Lemma error_detail_message (resp : Response) (props : list (string * json))
    (message : json) :
  res_json resp = Json (JObj props) ->
  lookup_prop "message" props = Some message ->
  truthy_json message = true ->
  error_detail resp = Some message.
Proof.
  intros Hbody Hlook Htruthy. unfold error_detail, response_json.
  rewrite Hbody. simpl. rewrite Hlook. simpl. now rewrite Htruthy.
Qed.

Lemma error_detail_not_json (resp : Response) (msg : string) :
  res_json resp = NotJson msg -> error_detail resp = None.
Proof. intros Hbody. unfold error_detail, response_json. now rewrite Hbody. Qed.

(** C2, as amended. On a non-2xx response to a request that was issued:
    if the body parses as a JSON object with a truthy message field, the
    detail is exactly that message; if the body is not JSON, there is no
    detail. When the detail can be converted to a string (as a string, a
    number, a boolean and no detail at all can), the error thrown is a
    MakeApiError carrying the status code, the status text, the detail
    and the message formatted from the three; when it cannot, the
    constructor throws a TypeError instead and no status is carried. *)
Theorem request_error_carries_status_and_message
    (this : MakeClient) (method path : string) (body : jsval)
    (queryParams : option QueryParams) (w : Remote) (url : string)
    (resp : Response) :
  build_url this path queryParams = Fulfilled url ->
  w (the_request this method url body) = Responded resp ->
  res_ok resp = false ->
  let thrown := (request this method path body queryParams w).2 in
  (forall props message,
     res_json resp = Json (JObj props) ->
     lookup_prop "message" props = Some message ->
     truthy_json message = true ->
     error_detail resp = Some message)
  /\ (forall msg, res_json resp = NotJson msg -> error_detail resp = None)
  /\ (converts_opt (error_detail resp) = true ->
      thrown
      = Rejected (MakeApiError (res_status resp) (res_statusText resp)
                    (error_detail resp)
                    (api_error_message (res_status resp) (res_statusText resp)
                       (error_detail resp))))
  /\ (converts_opt (error_detail resp) = false ->
      exists msg, thrown = Rejected (TypeError msg))
  /\ (forall props text,
        res_json resp = Json (JObj props) ->
        lookup_prop "message" props = Some (JStr text) ->
        text <> "" ->
        thrown
        = Rejected (MakeApiError (res_status resp) (res_statusText resp)
                      (Some (JStr text))
                      ("Make API Error " +:+ pretty (res_status resp) +:+ ": "
                         +:+ res_statusText resp +:+ " - " +:+ text)))
  /\ (forall msg,
        res_json resp = NotJson msg ->
        thrown
        = Rejected (MakeApiError (res_status resp) (res_statusText resp) None
                      ("Make API Error " +:+ pretty (res_status resp) +:+ ": "
                         +:+ res_statusText resp))).
Proof.
  intros Hurl Hw Hok thrown. subst thrown.
  rewrite (request_answered _ _ _ _ _ _ _ Hurl), Hw. cbn [snd].
  rewrite (answer_not_ok _ Hok).
  split; [apply error_detail_message|].
  split; [apply error_detail_not_json|].
  split; [intros ->; now rewrite andb_false_r|].
  split.
  { intros Hc. exists cannot_convert. rewrite Hc.
    destruct (error_detail resp) as [d|] eqn:Hd; [|discriminate Hc].
    apply error_detail_truthy in Hd. simpl. now rewrite Hd. }
  split.
  - intros props text Hbody Hlook Htext.
    assert (truthy_json (JStr text) = true) as Htruthy.
    { simpl. now destruct (String.eqb_spec text ""). }
    rewrite (error_detail_message _ _ _ Hbody Hlook Htruthy).
    unfold api_error_message. cbn [truthy converts_opt converts negb andb text_opt text_of].
    now rewrite Htruthy.
  - intros msg Hbody. rewrite (error_detail_not_json _ _ Hbody).
    unfold api_error_message. simpl. now rewrite !append_nil_r.
Qed.

Lemma request_error_carries_status_and_message_witness :
  (request sample_client "GET" "/scenarios/999" None None
     (always scenario_not_found)).2
  = Rejected (MakeApiError 404 "Not Found" (Some (JStr "Scenario not found"))
                "Make API Error 404: Not Found - Scenario not found").
Proof.
  destruct (request_error_carries_status_and_message sample_client "GET"
              "/scenarios/999" None None (always scenario_not_found)
              "https://eu1.make.com/api/v2/scenarios/999" scenario_not_found
              eq_refl eq_refl eq_refl) as (_ & _ & _ & _ & Hmessage & _).
  apply (Hmessage [("message", JStr "Scenario not found")] "Scenario not found");
    [reflexivity | reflexivity | discriminate].
Defined.

(** C2, as stated, fails: a body that has a message field holding the
    empty string does not give that message as the detail, but the
    serialization of the whole body. *)
Lemma empty_message_is_not_the_detail :
  let body := JObj [("message", JStr "")] in
  lookup_prop "message" [("message", JStr "")] = Some (JStr "")
  /\ (exists message,
        (request sample_client "GET" "/scenarios/999" None None
           (always (not_found (Json body)))).2
        = Rejected (MakeApiError 404 "Not Found"
                      (Some (JStr (JSON_stringify body))) message))
  /\ JSON_stringify body
     = "{" +:+ DQUOTE +:+ "message" +:+ DQUOTE +:+ ":" +:+ DQUOTE +:+ DQUOTE +:+ "}".
Proof. split; [reflexivity|]. split; [eexists; reflexivity | reflexivity]. Qed.

(** C10, as amended. On a non-2xx response whose body parses as a JSON
    value other than null, the detail is the message field if it is
    truthy, else the detail field if it is truthy, else the serialization
    of the whole body; so an empty message is skipped and the detail is
    always a truthy one. When that detail can be converted to a string
    (the serialization always can) the MakeApiError thrown carries it;
    when it cannot, the constructor throws a TypeError and no
    MakeApiError comes out. *)
Theorem error_detail_fallback
    (this : MakeClient) (method path : string) (body : jsval)
    (queryParams : option QueryParams) (w : Remote) (url : string)
    (resp : Response) (errorBody : json) :
  build_url this path queryParams = Fulfilled url ->
  w (the_request this method url body) = Responded resp ->
  res_ok resp = false ->
  res_json resp = Json errorBody ->
  errorBody <> JNull ->
  let thrown := (request this method path body queryParams w).2 in
  exists message detail : jsval,
    get_prop errorBody "message" = Fulfilled message
    /\ get_prop errorBody "detail" = Fulfilled detail
    /\ error_detail resp
       = (if truthy message then message
          else if truthy detail then detail
          else Some (JStr (JSON_stringify errorBody)))
    /\ truthy (error_detail resp) = true
    /\ (message = Some (JStr "") -> error_detail resp <> message)
    /\ (truthy message = false -> truthy detail = false ->
        converts_opt (error_detail resp) = true)
    /\ (converts_opt (error_detail resp) = true ->
        thrown
        = Rejected (MakeApiError (res_status resp) (res_statusText resp)
                      (error_detail resp)
                      ("Make API Error " +:+ pretty (res_status resp) +:+ ": "
                         +:+ res_statusText resp +:+ " - "
                         +:+ text_opt (error_detail resp))))
    /\ (converts_opt (error_detail resp) = false ->
        exists msg, thrown = Rejected (TypeError msg)).
Proof.
  intros Hurl Hw Hok Hbody Hnull thrown. subst thrown.
  rewrite (request_answered _ _ _ _ _ _ _ Hurl), Hw. cbn [snd].
  rewrite (answer_not_ok _ Hok).
  assert (exists message, get_prop errorBody "message" = Fulfilled message) as [message Hm].
  { destruct errorBody; simpl; eauto. congruence. }
  assert (exists detail, get_prop errorBody "detail" = Fulfilled detail) as [detail Hd].
  { destruct errorBody; simpl; eauto. congruence. }
  assert (error_detail resp
          = if truthy message then message
            else if truthy detail then detail
            else Some (JStr (JSON_stringify errorBody))) as Hdetail.
  { unfold error_detail, response_json. rewrite Hbody, Hm, Hd.
    destruct (truthy message); [reflexivity|]. now destruct (truthy detail). }
  assert (truthy (error_detail resp) = true) as Htruthy.
  { destruct (error_detail resp) as [d|] eqn:E.
    - now apply error_detail_truthy in E.
    - destruct (truthy message) eqn:Hmt; [subst message; discriminate Hmt|].
      destruct (truthy detail) eqn:Hdt; [subst detail; discriminate Hdt|].
      discriminate Hdetail. }
  exists message, detail.
  split; [exact Hm|]. split; [exact Hd|]. split; [exact Hdetail|].
  split; [exact Htruthy|].
  split; [intros -> E; rewrite E in Htruthy; discriminate|].
  split; [intros Hmt Hdt; rewrite Hdetail, Hmt, Hdt; reflexivity|].
  rewrite Htruthy. split.
  - intros ->. cbn [negb andb]. unfold api_error_message. now rewrite Htruthy.
  - intros ->. exists cannot_convert. reflexivity.
Qed.

Lemma error_detail_fallback_witness :
  (request sample_client "GET" "/scenarios" None None
     (always (not_found (Json (JObj [("message", JStr "");
                                      ("detail", JStr "quota exceeded")]))))).2
  = Rejected (MakeApiError 404 "Not Found" (Some (JStr "quota exceeded"))
                "Make API Error 404: Not Found - quota exceeded").
Proof.
  destruct (error_detail_fallback sample_client "GET" "/scenarios" None None
              (always (not_found (Json (JObj [("message", JStr "");
                                               ("detail", JStr "quota exceeded")]))))
              "https://eu1.make.com/api/v2/scenarios"
              (not_found (Json (JObj [("message", JStr "");
                                      ("detail", JStr "quota exceeded")])))
              (JObj [("message", JStr ""); ("detail", JStr "quota exceeded")])
              eq_refl eq_refl eq_refl eq_refl ltac:(discriminate))
    as (message & detail & _ & _ & _ & _ & _ & _ & Hthrown & _).
  apply Hthrown. reflexivity.
Defined.

(** C10, as stated, fails: the body null parses as JSON, reading its
    message field throws inside the try block, and the error is thrown
    with no detail. *)
Lemma null_body_gives_no_detail :
  res_json (not_found (Json JNull)) = Json JNull
  /\ (request sample_client "GET" "/scenarios/999" None None
        (always (not_found (Json JNull)))).2
     = Rejected (MakeApiError 404 "Not Found" None "Make API Error 404: Not Found").
Proof. split; reflexivity. Qed.

(** ** The dispatchers *)

Lemma bind_cong_l {A B} (m m' : Async A) (k : A -> Async B) (w : Remote) :
  m w = m' w -> bind m k w = bind m' k w.
Proof. unfold bind. now intros ->. Qed.

Lemma bind_ret_run {A B} (m : Async A) (f : A -> B) (w : Remote) :
  bind m (fun a => ret (f a)) w
  = ((m w).1, match (m w).2 with
              | Fulfilled a => Fulfilled (f a)
              | Rejected e => Rejected e
              end).
Proof.
  unfold bind, ret. destruct (m w) as [t [a|e]]; simpl; [|reflexivity].
  now rewrite app_nil_r.
Qed.

Lemma all_convert_set_prop (q : QueryParams) (key : string) (value : jsval) :
  all_convert q = true -> converts_opt value = true ->
  all_convert (set_prop q key value) = true.
Proof.
  intros Hq Hv. induction q as [|[k v] q IH]; simpl in *.
  - now rewrite Hv.
  - apply andb_true_iff in Hq as [Hk Hq].
    destruct (String.eqb k key); simpl.
    + now rewrite Hv, Hq.
    + now rewrite Hk, IH.
Qed.

Lemma all_convert_add_if_truthy (q : QueryParams) (key : string) (value : jsval) :
  all_convert q = true -> converts_opt value = true ->
  all_convert (add_if_truthy q key value) = true.
Proof.
  intros Hq Hv. unfold add_if_truthy. destruct (truthy value); [|exact Hq].
  now apply all_convert_set_prop.
Qed.

Lemma build_url_fulfilled (this : MakeClient) (path : string)
    (queryParams : option QueryParams) :
  match queryParams with
  | Some entries => all_convert entries = true
  | None => True
  end ->
  exists u, build_url this path queryParams = Fulfilled u.
Proof.
  destruct queryParams as [entries|]; [|intros _; eexists; reflexivity].
  intros Hc. rewrite build_url_spec, Hc. eexists; reflexivity.
Qed.

Lemma via_id_fulfilled (this : MakeClient) (x : jsval) (f : string -> string)
    (queryParams : option QueryParams) :
  converts_opt x = true ->
  (exists u, build_url this (f (text_opt x)) queryParams = Fulfilled u) ->
  exists u,
    and_then (String_ x) (fun id => build_url this (f id) queryParams) = Fulfilled u.
Proof. intros Hx Hu. now rewrite String__spec, Hx. Qed.

Create HintDb client_methods.
#[local] Hint Unfold listScenarios getScenario createScenario updateScenario
  deleteScenario activateScenario deactivateScenario runScenario cloneScenario
  getScenarioBlueprint getScenarioLogs listConnections listHooks listDataStores
  getDataStore createDataStore listDataStoreRecords createDataStoreRecord
  listTeams listOrganizations getCurrentUser : client_methods.

Ltac in_catalog := simpl; repeat (first [left; reflexivity | right]).

Ltac not_in_catalog :=
  let Hin := fresh "Hin" in
  simpl; intros Hin; repeat (destruct Hin as [Hin|Hin]; [congruence|]); exact Hin.

(** A client method run as one call of [send]. *)
Ltac as_send :=
  let w := fresh "w" in
  intros w; apply bind_cong_l; autounfold with client_methods; cbv zeta;
  first [apply request_run | apply via_id].

Ltac url_converts :=
  let Hc := fresh "Hc" in
  intros Hc;
  try (apply via_id_fulfilled; [apply Hc|]);
  apply build_url_fulfilled; try exact I;
  repeat (apply all_convert_add_if_truthy; [|first [apply Hc | reflexivity]]);
  cbn [all_convert forallb snd]; rewrite ?Hc; reflexivity.

Ltac switch_shape name :=
  repeat
    match goal with
    | |- context [String.eqb name ?lit] =>
        destruct (String.eqb_spec name lit) as [?|?];
        [ left; split;
          [ subst name; in_catalog
          | do 3 eexists; split;
            [ as_send
            | split; [first [apply build_url_ok | apply via_id_ok] | url_converts] ] ]
        | ]
    end;
  right; split; [not_in_catalog | reflexivity].

(** The switch of src/index.ts: a tool of the catalog is one client call,
    that is one call of [request] once the URL is built, whose result is
    wrapped as text; the URL lies under the base URL and is built
    whenever every argument can be converted. Any other name is answered
    without calling the client. *)
Lemma Index_switch_shape (client : MakeClient) (name : string) (args : Arguments_bag) :
  (In name (map tool_name Index.tools)
   /\ exists method url body,
        (forall w,
           Index.call_tool_switch client name args w
           = bind (send client method url body)
                  (fun result => ret (text_result result)) w)
        /\ url_ok client url
        /\ (all_args_convert args -> exists u, url = Fulfilled u))
  \/ (~ In name (map tool_name Index.tools)
      /\ Index.call_tool_switch client name args
         = ret (error_result ("Unknown tool: " +:+ name))).
Proof. unfold Index.call_tool_switch. switch_shape name. Qed.

Lemma ApiMcp_switch_shape (client : MakeClient) (name : string) (args : Arguments_bag) :
  (In name (map tool_name ApiMcp.tools)
   /\ exists method url body,
        (forall w,
           ApiMcp.call_tool_switch client name args w
           = bind (send client method url body)
                  (fun result => ret (text_result result)) w)
        /\ url_ok client url
        /\ (all_args_convert args -> exists u, url = Fulfilled u))
  \/ (~ In name (map tool_name ApiMcp.tools)
      /\ ApiMcp.call_tool_switch client name args
         = ret (error_result ("Unknown tool: " +:+ name))).
Proof. unfold ApiMcp.call_tool_switch. switch_shape name. Qed.

(** What each handler returns for a tool of its catalog: the settling of
    one client call. *)
Lemma Index_call_tool_run (client : MakeClient) (name : string) (args : Arguments_bag) :
  In name (map tool_name Index.tools) ->
  exists method url body,
    (forall w,
       Index.call_tool client name args w
       = settle_index (send client method url body w))
    /\ (forall w,
          (Index.call_tool_switch client name args w).2
          = match (send client method url body w).2 with
            | Fulfilled result => Fulfilled (text_result result)
            | Rejected e => Rejected e
            end)
    /\ url_ok client url
    /\ (all_args_convert args -> exists u, url = Fulfilled u).
Proof.
  intros Hin.
  destruct (Index_switch_shape client name args)
    as [[_ (method & url & body & Hrun & Hurl & Hconv)]|[Hout _]]; [|tauto].
  exists method, url, body. split; [|split; [|tauto]].
  2: { intros w. now rewrite Hrun, bind_ret_run. }
  intros w. unfold Index.call_tool, try_catch, settle_index.
  rewrite Hrun, bind_ret_run.
  destruct (send client method url body w) as [t [r|e]]; cbn [fst snd]; [reflexivity|].
  destruct (instanceof_MakeApiError e); unfold ret, throw; now rewrite app_nil_r.
Qed.

Lemma ApiMcp_call_tool_run (client : MakeClient) (name : string) (args : Arguments_bag) :
  In name (map tool_name ApiMcp.tools) ->
  exists method url body,
    (forall w,
       ApiMcp.call_tool client name args w
       = settle_hosted (send client method url body w))
    /\ (forall w,
          (ApiMcp.call_tool_switch client name args w).2
          = match (send client method url body w).2 with
            | Fulfilled result => Fulfilled (text_result result)
            | Rejected e => Rejected e
            end)
    /\ url_ok client url
    /\ (all_args_convert args -> exists u, url = Fulfilled u).
Proof.
  intros Hin.
  destruct (ApiMcp_switch_shape client name args)
    as [[_ (method & url & body & Hrun & Hurl & Hconv)]|[Hout _]]; [|tauto].
  exists method, url, body. split; [|split; [|tauto]].
  2: { intros w. now rewrite Hrun, bind_ret_run. }
  intros w. unfold ApiMcp.call_tool, try_catch, settle_hosted.
  rewrite Hrun, bind_ret_run.
  destruct (send client method url body w) as [t [r|e]]; cbn [fst snd]; [reflexivity|].
  unfold ret; now rewrite app_nil_r.
Qed.

(** The [catch] blocks issue no request of their own. *)
Lemma Index_call_tool_trace (client : MakeClient) (name : string)
    (args : Arguments_bag) (w : Remote) :
  (Index.call_tool client name args w).1
  = (Index.call_tool_switch client name args w).1.
Proof.
  unfold Index.call_tool, try_catch.
  destruct (Index.call_tool_switch client name args w) as [t [a|e]]; [reflexivity|].
  destruct (instanceof_MakeApiError e); simpl; apply app_nil_r.
Qed.

Lemma ApiMcp_call_tool_trace (client : MakeClient) (name : string)
    (args : Arguments_bag) (w : Remote) :
  (ApiMcp.call_tool client name args w).1
  = (ApiMcp.call_tool_switch client name args w).1.
Proof.
  unfold ApiMcp.call_tool, try_catch.
  destruct (ApiMcp.call_tool_switch client name args w) as [t [a|e]]; [reflexivity|].
  simpl; apply app_nil_r.
Qed.

(** A client call that issued a request settles on the answer to it. *)
Lemma send_issued (this : MakeClient) (method : string) (url : Outcome string)
    (body : jsval) (w : Remote) :
  (send this method url body w).1 <> [] ->
  exists u,
    url = Fulfilled u
    /\ send this method url body w
       = ([the_request this method u body],
          answer (w (the_request this method u body))).
Proof.
  rewrite send_run. destruct url as [u|e]; [|now intros []].
  intros _. now exists u.
Qed.

Lemma try_catch_rejected {A} (m : Async A) (h : error -> Async A) (w : Remote) (e : error) :
  (m w).2 = Rejected e ->
  try_catch m h w = ((m w).1 ++ (h e w).1, (h e w).2).
Proof.
  unfold try_catch. destruct (m w) as [t o]; simpl; intros ->. now destruct (h e w).
Qed.

(** C7. A tool name that is not in the catalog is answered with a normal
    result, flagged as an error, whose text names the unknown tool; nothing
    is thrown and no request is issued. This holds for the stdio dispatcher
    and for the hosted handler. *)
Theorem unknown_tool_is_an_error_result
    (client : MakeClient) (name : string) (args : Arguments_bag) (w : Remote) :
  (~ In name (map tool_name Index.tools) ->
   Index.call_tool client name args w
   = ([], Fulfilled {| content := [ {| type := "text";
                                       text := "Unknown tool: " +:+ name |} ];
                       isError := Some true |}))
  /\ (~ In name (map tool_name ApiMcp.tools) ->
      ApiMcp.call_tool client name args w
      = ([], Fulfilled {| content := [ {| type := "text";
                                          text := "Unknown tool: " +:+ name |} ];
                          isError := Some true |}))
  /\ includes name ("Unknown tool: " +:+ name) = true.
Proof.
  split; [|split].
  - intros Hout. unfold Index.call_tool.
    destruct (Index_switch_shape client name args) as [[Hin _]|[_ ->]]; [tauto|].
    reflexivity.
  - intros Hout. unfold ApiMcp.call_tool.
    destruct (ApiMcp_switch_shape client name args) as [[Hin _]|[_ ->]]; [tauto|].
    reflexivity.
  - apply includes_end.
Qed.

Lemma unknown_tool_is_an_error_result_witness :
  Index.call_tool sample_client "send_email" None unreachable
  = ([], Fulfilled (error_result "Unknown tool: send_email"))
  /\ ApiMcp.call_tool sample_client "get_scenario" None unreachable
     = ([], Fulfilled (error_result "Unknown tool: get_scenario")).
Proof.
  split.
  - apply (unknown_tool_is_an_error_result sample_client "send_email" None unreachable).
    simpl. intuition discriminate.
  - apply (unknown_tool_is_an_error_result sample_client "get_scenario" None unreachable).
    simpl. intuition discriminate.
Defined.




(** The message of a [MakeApiError] shows the status code and, when the
    error has a detail, the detail. *)
Lemma api_error_message_includes (statusCode : Z) (statusText : string)
    (detail : jsval) (prefix : string) :
  includes (pretty statusCode)
    (prefix +:+ api_error_message statusCode statusText detail) = true
  /\ (truthy detail = true ->
      includes (text_opt detail)
        (prefix +:+ api_error_message statusCode statusText detail) = true).
Proof.
  unfold api_error_message. split.
  - rewrite <- (append_assoc prefix "Make API Error ").
    apply includes_app.
  - intros ->. rewrite <- !append_assoc. apply includes_end.
Qed.

(** C3. When the client call of a tool fails with a MakeApiError, the
    handler returns a result flagged as an error with a single text
    block: the message of the error after the words Make API Error in the
    stdio dispatcher, String(error) in the hosted handler. That failure
    is what a non-2xx answer to the request of the tool gives when the
    detail read from the body can be converted to a string, and the
    message, hence the text, then contains the status code in decimal
    and, when there is a detail, the detail. *)
Theorem api_error_is_an_error_result
    (client : MakeClient) (name : string) (args : Arguments_bag) (w : Remote)
    (resp : Response) :
  (forall req, w req = Responded resp) ->
  res_ok resp = false ->
  converts_opt (error_detail resp) = true ->
  let message :=
    api_error_message (res_status resp) (res_statusText resp) (error_detail resp) in
  (In name (map tool_name Index.tools) ->
   (Index.call_tool client name args w).1 <> [] ->
   (Index.call_tool_switch client name args w).2
   = Rejected (MakeApiError (res_status resp) (res_statusText resp)
                 (error_detail resp) message)
   /\ (Index.call_tool client name args w).2
      = Fulfilled {| content := [ {| type := "text";
                                     text := "Make API Error: " +:+ message |} ];
                     isError := Some true |})
  /\ (In name (map tool_name ApiMcp.tools) ->
      (ApiMcp.call_tool client name args w).1 <> [] ->
      (ApiMcp.call_tool_switch client name args w).2
      = Rejected (MakeApiError (res_status resp) (res_statusText resp)
                    (error_detail resp) message)
      /\ (ApiMcp.call_tool client name args w).2
         = Fulfilled {| content := [ {| type := "text";
                                        text := "MakeApiError: " +:+ message |} ];
                        isError := Some true |})
  /\ (forall sc st d msg,
        (Index.call_tool_switch client name args w).2
        = Rejected (MakeApiError sc st d msg) ->
        (Index.call_tool client name args w).2
        = Fulfilled {| content := [ {| type := "text";
                                       text := "Make API Error: " +:+ msg |} ];
                       isError := Some true |})
  /\ (forall sc st d msg,
        (ApiMcp.call_tool_switch client name args w).2
        = Rejected (MakeApiError sc st d msg) ->
        (ApiMcp.call_tool client name args w).2
        = Fulfilled {| content := [ {| type := "text";
                                       text := if String.eqb msg "" then "MakeApiError"
                                               else "MakeApiError: " +:+ msg |} ];
                       isError := Some true |})
  /\ (forall prefix, includes (pretty (res_status resp)) (prefix +:+ message) = true)
  /\ (forall prefix d,
        error_detail resp = Some d ->
        includes (text_of d) (prefix +:+ message) = true).
Proof.
  intros Hw Hok Hconv message.
  assert (forall req,
            answer (w req)
            = Rejected (MakeApiError (res_status resp) (res_statusText resp)
                          (error_detail resp) message)) as Hanswer.
  { intros req. rewrite Hw, (answer_not_ok _ Hok), Hconv. now rewrite andb_false_r. }
  split; [|split; [|split; [|split; [|split]]]].
  - intros Hin.
    destruct (Index_call_tool_run client name args Hin)
      as (method & url & body & Hrun & Hswitch & _ & _).
    rewrite Hrun, Hswitch. cbn [settle_index fst snd]. intros Hissued.
    destruct (send_issued _ _ _ _ _ Hissued) as (u & _ & ->).
    cbn [snd]. now rewrite Hanswer.
  - intros Hin.
    destruct (ApiMcp_call_tool_run client name args Hin)
      as (method & url & body & Hrun & Hswitch & _ & _).
    rewrite Hrun, Hswitch. cbn [settle_hosted fst snd]. intros Hissued.
    destruct (send_issued _ _ _ _ _ Hissued) as (u & _ & ->).
    cbn [snd]. now rewrite Hanswer.
  - intros sc st d msg Hthrown. unfold Index.call_tool.
    now rewrite try_catch_rejected with (e := MakeApiError sc st d msg) by exact Hthrown.
  - intros sc st d msg Hthrown. unfold ApiMcp.call_tool.
    now rewrite try_catch_rejected with (e := MakeApiError sc st d msg) by exact Hthrown.
  - intros prefix. apply api_error_message_includes.
  - intros prefix d Hd.
    destruct (api_error_message_includes (res_status resp) (res_statusText resp)
                (error_detail resp) prefix) as [_ Hdetail].
    fold message in Hdetail. rewrite Hd in Hdetail. apply Hdetail.
    now apply error_detail_truthy with (resp := resp).
Qed.

Lemma api_error_is_an_error_result_witness :
  (Index.call_tool sample_client "get_scenario" get_999 (always scenario_not_found)).2
  = Fulfilled
      (error_result "Make API Error: Make API Error 404: Not Found - Scenario not found")
  /\ includes "404"
       "Make API Error: Make API Error 404: Not Found - Scenario not found" = true
  /\ includes "Scenario not found"
       "Make API Error: Make API Error 404: Not Found - Scenario not found" = true.
Proof.
  destruct (api_error_is_an_error_result sample_client "get_scenario" get_999
              (always scenario_not_found) scenario_not_found
              (fun _ => eq_refl) eq_refl eq_refl)
    as (Hindex & _ & _ & _ & Hstatus & Hdetail).
  split; [|split].
  - apply Hindex; [simpl; tauto | discriminate].
  - apply (Hstatus "Make API Error: ").
  - apply (Hdetail "Make API Error: " (JStr "Scenario not found")). reflexivity.
Defined.

(** C5 fails on src/index.ts: get_scenario, which declares scenarioId
    required, called with an empty bag is not rejected; the absent value
    goes into the client, which sends GET /scenarios/undefined, and what
    the remote answers to that request is returned as the result of the
    tool. *)
Theorem missing_required_argument_reaches_the_remote
    (client : MakeClient) (w : Remote) :
  required_fields Index.tools "get_scenario" = ["scenarioId"]
  /\ arg (Some ∅) "scenarioId" = None
  /\ (Index.call_tool client "get_scenario" (Some ∅) w).1
     = [ {| req_url := baseUrl client +:+ "/scenarios/undefined";
            req_method := "GET";
            req_headers := headers client;
            req_body := None |} ]
  /\ (forall resp result,
        w {| req_url := baseUrl client +:+ "/scenarios/undefined";
             req_method := "GET";
             req_headers := headers client;
             req_body := None |} = Responded resp ->
        res_ok resp = true ->
        res_json resp = Json result ->
        (Index.call_tool client "get_scenario" (Some ∅) w).2
        = Fulfilled {| content := [ {| type := "text";
                                       text := JSON_stringify_2 result |} ];
                       isError := None |}).
Proof.
  assert (Index.call_tool client "get_scenario" (Some ∅) w
          = settle_index
              (send client "GET" (Fulfilled (baseUrl client +:+ "/scenarios/undefined"))
                 None w)) as Hrun.
  { unfold Index.call_tool, try_catch, settle_index.
    change (Index.call_tool_switch client "get_scenario" (Some ∅) w)
      with (bind (getScenario client (arg (Some ∅) "scenarioId"))
              (fun result => ret (text_result result)) w).
    rewrite (bind_cong_l _ (send client "GET"
                              (Fulfilled (baseUrl client +:+ "/scenarios/undefined")) None))
      by (unfold getScenario; apply via_id).
    rewrite bind_ret_run.
    destruct (send client "GET" _ None w) as [t [r|e]]; cbn [fst snd]; [reflexivity|].
    destruct (instanceof_MakeApiError e); unfold ret, throw; now rewrite app_nil_r. }
  split; [reflexivity|]. split; [reflexivity|].
  rewrite Hrun, send_run. cbn [settle_index fst snd]. split; [reflexivity|].
  intros resp result Hw Hok Hresult.
  change (the_request client "GET" (baseUrl client +:+ "/scenarios/undefined") None)
    with {| req_url := baseUrl client +:+ "/scenarios/undefined";
            req_method := "GET";
            req_headers := headers client;
            req_body := None |}.
  rewrite Hw, (answer_ok _ Hok). unfold response_json. now rewrite Hresult.
Qed.

(** C6, as amended. In the stdio dispatcher of src/index.ts a failure that
    is not a MakeApiError leaves the handler as it is, uncaught: whatever
    the switch throws, and in particular the TypeError of a request that
    found the remote out of reach and the SyntaxError of a 2xx body that
    is not JSON; with the remote out of reach a tool of the catalog
    always ends in a TypeError, that of the network or that of an
    argument that cannot be converted to a string. The hosted handler of
    api/mcp.ts catches every failure and returns it as a result flagged
    as an error, whose text is String(error). *)
Theorem other_failures_propagate_from_index_only
    (client : MakeClient) (name : string) (args : Arguments_bag) (w : Remote)
    (e : error) :
  instanceof_MakeApiError e = false ->
  ((Index.call_tool_switch client name args w).2 = Rejected e ->
   (Index.call_tool client name args w).2 = Rejected e)
  /\ (In name (map tool_name Index.tools) ->
      forall msg, (forall req, w req = NetworkFailure msg) ->
      ((Index.call_tool client name args w).1 <> [] ->
       (Index.call_tool client name args w).2 = Rejected (TypeError msg))
      /\ exists thrown,
           (Index.call_tool client name args w).2 = Rejected (TypeError thrown))
  /\ (In name (map tool_name Index.tools) ->
      forall resp msg, (forall req, w req = Responded resp) ->
      res_ok resp = true -> res_json resp = NotJson msg ->
      (Index.call_tool client name args w).1 <> [] ->
      (Index.call_tool client name args w).2 = Rejected (SyntaxError msg))
  /\ ((ApiMcp.call_tool_switch client name args w).2 = Rejected e ->
      (ApiMcp.call_tool client name args w).2
      = Fulfilled {| content := [ {| type := "text"; text := String_error e |} ];
                     isError := Some true |}).
Proof.
  intros He. split; [|split; [|split]].
  - intros Hthrown. unfold Index.call_tool.
    rewrite try_catch_rejected with (e := e) by exact Hthrown.
    now rewrite He.
  - intros Hin msg Hw.
    destruct (Index_call_tool_run client name args Hin)
      as (method & url & body & Hrun & _ & Hurl & _).
    rewrite Hrun. cbn [settle_index fst snd]. split.
    + intros Hissued. destruct (send_issued _ _ _ _ _ Hissued) as (u & _ & ->).
      cbn [snd]. now rewrite Hw.
    + rewrite send_run. destruct url as [u|thrown]; cbn [snd].
      * rewrite Hw. now exists msg.
      * simpl in Hurl. subst thrown. now exists cannot_convert.
  - intros Hin resp msg Hw Hok Hbody.
    destruct (Index_call_tool_run client name args Hin)
      as (method & url & body & Hrun & _ & _ & _).
    rewrite Hrun. cbn [settle_index fst snd]. intros Hissued.
    destruct (send_issued _ _ _ _ _ Hissued) as (u & _ & ->).
    cbn [snd]. rewrite Hw, (answer_ok _ Hok). unfold response_json. now rewrite Hbody.
  - intros Hthrown. unfold ApiMcp.call_tool.
    now rewrite try_catch_rejected with (e := e) by exact Hthrown.
Qed.

Lemma other_failures_propagate_from_index_only_witness :
  (Index.call_tool sample_client "run_scenario" run_42 unreachable).2
  = Rejected (TypeError "fetch failed")
  /\ (ApiMcp.call_tool sample_client "run_scenario" run_42 unreachable).2
     = Fulfilled (error_result "TypeError: fetch failed").
Proof.
  destruct (other_failures_propagate_from_index_only sample_client "run_scenario"
              run_42 unreachable (TypeError "fetch failed") eq_refl)
    as (Hindex & _ & _ & Hhosted).
  split; [apply Hindex | apply Hhosted]; reflexivity.
Defined.

(** C6, as stated, fails for the hosted handler: with the remote out of
    reach the switch throws a TypeError, which is not a MakeApiError, and
    the handler returns a result flagged as an error instead of letting
    the failure through. *)
Lemma hosted_handler_swallows_other_failures :
  (ApiMcp.call_tool_switch sample_client "run_scenario" run_42 unreachable).2
  = Rejected (TypeError "fetch failed")
  /\ instanceof_MakeApiError (TypeError "fetch failed") = false
  /\ ApiMcp.call_tool sample_client "run_scenario" run_42 unreachable
     = ([ {| req_url := "https://eu1.make.com/api/v2/scenarios/42/run";
             req_method := "POST";
             req_headers := [("Authorization", "Token secret");
                             ("Content-Type", "application/json")];
             req_body := None |} ],
        Fulfilled {| content := [ {| type := "text";
                                     text := "TypeError: fetch failed" |} ];
                     isError := Some true |}).
Proof. repeat split; vm_compute; reflexivity. Qed.

(** ** Further properties: the serializers *)

Lemma urlencode_byte_decoded (c : ascii) (rest : string) :
  urldecode (urlencode_byte c +:+ rest) = String c (urldecode rest).
Proof. destruct c as [[] [] [] [] [] [] [] []]; reflexivity. Qed.

(** X1. A serialized query name or value is made only of ASCII letters,
    digits, the marks star, hyphen, dot and underscore, the plus sign and
    percent escapes; so it never holds an ampersand, an equals sign, a
    question mark, a hash, a slash or a space, whatever the input holds. *)
Theorem urlencode_output_is_plain (s : string) :
  string_forall urlencoded_output (urlencode s) = true
  /\ count_byte "&" (urlencode s) = 0%nat
  /\ count_byte "=" (urlencode s) = 0%nat
  /\ count_byte "?" (urlencode s) = 0%nat
  /\ count_byte "#" (urlencode s) = 0%nat
  /\ count_byte "/" (urlencode s) = 0%nat
  /\ count_byte " " (urlencode s) = 0%nat.
Proof.
  pose proof (urlencode_plain s) as H.
  repeat split; try exact H;
    apply (forall_excludes_byte urlencoded_output); solve [reflexivity | exact H].
Qed.

(** X2. On well-formed strings, taken as the bytes of their UTF-8
    encoding (a string with a lone surrogate is not one, and the platform
    replaces the surrogate before encoding), serializing a query name or
    value loses nothing: decoding the result gives the bytes back, so two
    different byte strings never share an encoding. *)
Theorem urlencode_round_trip (s : string) :
  urldecode (urlencode s) = s
  /\ forall t, urlencode s = urlencode t -> s = t.
Proof.
  assert (forall u, urldecode (urlencode u) = u) as H.
  { induction u as [|c u IH]; [reflexivity|].
    change (urlencode (String c u)) with (urlencode_byte c +:+ urlencode u).
    now rewrite urlencode_byte_decoded, IH. }
  split; [apply H|].
  intros t E. rewrite <- (H s), <- (H t). now rewrite E.
Qed.

Lemma urlencode_round_trip_witness :
  urlencode "pg[sortBy]" = "pg%5BsortBy%5D"
  /\ urldecode "pg%5BsortBy%5D" = "pg[sortBy]"
  /\ "pg[sortBy]" = urldecode "pg%5BsortBy%5D".
Proof.
  split; [reflexivity|]. split.
  - exact (proj1 (urlencode_round_trip "pg[sortBy]")).
  - exact (proj2 (urlencode_round_trip "pg[sortBy]") (urldecode "pg%5BsortBy%5D")
             eq_refl).
Defined.

(** X3. In the query string of n pairs the equals sign occurs exactly n
    times and the ampersand exactly n - 1 times (none for an empty list):
    both occur only as separators, never inside a name or a value. *)
Theorem query_string_separators (params : URLSearchParams) :
  count_byte "=" (params_toString params) = length params
  /\ count_byte "&" (params_toString params) = pred (length params).
Proof.
  split.
  - rewrite (params_toString_counts "=") by reflexivity.
    change (count_byte "=" "=") with 1%nat. change (count_byte "=" "&") with 0%nat. lia.
  - rewrite (params_toString_counts "&") by reflexivity.
    change (count_byte "&" "=") with 0%nat. change (count_byte "&" "&") with 1%nat. lia.
Qed.

Lemma quote_char_printable (c : ascii) :
  string_forall (fun x => (32 <=? N_of_ascii x)%N) (quote_char c) = true.
Proof. each_byte c. Qed.

Lemma quote_char_unquoted (c : ascii) (rest : string) :
  unquote_body (quote_char c +:+ rest) = String c (unquote_body rest).
Proof. destruct c as [[] [] [] [] [] [] [] []]; reflexivity. Qed.

Lemma quote_body_printable (s : string) :
  string_forall (fun x => (32 <=? N_of_ascii x)%N) (quote_body s) = true.
Proof.
  induction s as [|c s IH]; simpl; [reflexivity|].
  now rewrite string_forall_app, quote_char_printable, IH.
Qed.

(** X4. Escaping a string for JSON loses nothing and leaves no control
    character: reading the escapes back gives the input, two different
    strings never share an escaped form, and every byte of the escaped
    form has a code of 32 or more (a line feed in the input becomes the two
    characters backslash and n). *)
Theorem quote_body_round_trip (s : string) :
  unquote_body (quote_body s) = s
  /\ (forall t, quote_body s = quote_body t -> s = t)
  /\ string_forall (fun x => (32 <=? N_of_ascii x)%N) (QuoteJSONString s) = true.
Proof.
  assert (forall u, unquote_body (quote_body u) = u) as H.
  { induction u as [|c u IH]; [reflexivity|].
    change (quote_body (String c u)) with (quote_char c +:+ quote_body u).
    now rewrite quote_char_unquoted, IH. }
  split; [apply H|]. split.
  - intros t E. rewrite <- (H s), <- (H t). now rewrite E.
  - unfold QuoteJSONString.
    now rewrite !string_forall_app, quote_body_printable.
Qed.

Lemma quote_body_round_trip_witness :
  quote_body ("a" +:+ LF +:+ "b") = "a\nb"
  /\ unquote_body "a\nb" = "a" +:+ LF +:+ "b"
  /\ "a" +:+ LF +:+ "b" = unquote_body "a\nb".
Proof.
  split; [reflexivity|]. split.
  - exact (proj1 (quote_body_round_trip ("a" +:+ LF +:+ "b"))).
  - exact (proj1 (proj2 (quote_body_round_trip ("a" +:+ LF +:+ "b")))
             (unquote_body "a\nb") eq_refl).
Defined.

(** ** Further properties: the dispatchers *)

(** The requests a client call issues: the one built from its URL, or
    none when the URL could not be built. *)
Lemma send_trace (this : MakeClient) (method : string) (url : Outcome string)
    (body : jsval) (w : Remote) (req : Request) :
  In req (send this method url body w).1 ->
  exists u, url = Fulfilled u /\ req = the_request this method u body.
Proof.
  rewrite send_run. destruct url as [u|e]; simpl; [|tauto].
  intros [<-|[]]. now exists u.
Qed.

(** X5. Whatever the tool name and the arguments, every request either
    dispatcher issues carries the headers built from the configuration
    (Authorization: Token and the API token, Content-Type:
    application/json) and goes to a URL under the base URL of the
    configured zone. *)
Theorem every_request_is_authenticated
    (config : MakeConfig) (name : string) (args : Arguments_bag) (w : Remote)
    (req : Request) :
  In req (Index.call_tool (new_MakeClient config) name args w).1
  \/ In req (ApiMcp.call_tool (new_MakeClient config) name args w).1 ->
  req_headers req = [("Authorization", "Token " +:+ apiToken config);
                     ("Content-Type", "application/json")]
  /\ String.prefix ("https://" +:+ zone config +:+ ".make.com/api/v2") (req_url req)
     = true.
Proof.
  rewrite Index_call_tool_trace, ApiMcp_call_tool_trace.
  intros [Hreq|Hreq].
  - destruct (Index_switch_shape (new_MakeClient config) name args)
      as [[_ (method & url & body & Hshape & Hurl & _)]|[_ Hshape]];
      rewrite Hshape in Hreq; [|contradiction].
    rewrite bind_ret_run in Hreq. cbn [fst] in Hreq.
    apply send_trace in Hreq as (u & -> & ->). split; [reflexivity|].
    exact Hurl.
  - destruct (ApiMcp_switch_shape (new_MakeClient config) name args)
      as [[_ (method & url & body & Hshape & Hurl & _)]|[_ Hshape]];
      rewrite Hshape in Hreq; [|contradiction].
    rewrite bind_ret_run in Hreq. cbn [fst] in Hreq.
    apply send_trace in Hreq as (u & -> & ->). split; [reflexivity|].
    exact Hurl.
Qed.

Lemma every_request_is_authenticated_witness :
  let req := {| req_url := "https://eu1.make.com/api/v2/scenarios/42/run";
                req_method := "POST";
                req_headers := [("Authorization", "Token secret");
                                ("Content-Type", "application/json")];
                req_body := None |} in
  In req (ApiMcp.call_tool sample_client "run_scenario" run_42 unreachable).1
  /\ req_headers req = [("Authorization", "Token secret");
                        ("Content-Type", "application/json")]
  /\ String.prefix "https://eu1.make.com/api/v2" (req_url req) = true.
Proof.
  assert (In {| req_url := "https://eu1.make.com/api/v2/scenarios/42/run";
                req_method := "POST";
                req_headers := [("Authorization", "Token secret");
                                ("Content-Type", "application/json")];
                req_body := None |}
             (ApiMcp.call_tool sample_client "run_scenario" run_42 unreachable).1) as Hin.
  { left. reflexivity. }
  split; [exact Hin|].
  exact (every_request_is_authenticated {| apiToken := "secret"; zone := "eu1" |}
           "run_scenario" run_42 unreachable _ (or_intror Hin)).
Defined.

(** The trace of one case of a switch, as the trace of one [send]. *)
Ltac run_switch H :=
  unfold Index.call_tool_switch, ApiMcp.call_tool_switch in H;
  cbn [String.eqb Ascii.eqb Bool.eqb] in H;
  rewrite bind_ret_run in H; cbn [fst] in H;
  autounfold with client_methods in H; cbv zeta in H;
  first [rewrite via_id in H | rewrite request_run in H];
  apply send_trace in H.

(** X6. The twelve list and get tools of the stdio server only read: the
    request any of them issues is a GET without a body, whatever the
    arguments hold. *)
Theorem read_only_tools_only_get
    (client : MakeClient) (name : string) (args : Arguments_bag) (w : Remote)
    (req : Request) :
  In name read_only_tools ->
  In req (Index.call_tool client name args w).1 ->
  req_method req = "GET" /\ req_body req = None.
Proof.
  intros Hname Hreq. rewrite Index_call_tool_trace in Hreq.
  simpl in Hname.
  repeat (destruct Hname as [<-|Hname];
          [run_switch Hreq; destruct Hreq as (u & _ & ->); split; reflexivity|]).
  contradiction.
Qed.

Lemma read_only_tools_only_get_witness :
  let req := {| req_url := "https://eu1.make.com/api/v2/scenarios/999";
                req_method := "GET";
                req_headers := [("Authorization", "Token secret");
                                ("Content-Type", "application/json")];
                req_body := None |} in
  In req (Index.call_tool sample_client "get_scenario" get_999 unreachable).1
  /\ req_method req = "GET" /\ req_body req = None.
Proof.
  assert (In {| req_url := "https://eu1.make.com/api/v2/scenarios/999";
                req_method := "GET";
                req_headers := [("Authorization", "Token secret");
                                ("Content-Type", "application/json")];
                req_body := None |}
             (Index.call_tool sample_client "get_scenario" get_999 unreachable).1) as Hin.
  { left. reflexivity. }
  split; [exact Hin|].
  apply (read_only_tools_only_get sample_client "get_scenario" get_999 unreachable);
    [simpl; tauto | exact Hin].
Defined.

Lemma arg_empty (key : string) : arg (Some ∅) key = arg None key.
Proof. unfold arg; simpl. apply lookup_empty. Qed.

(** X7. A call that comes without an arguments object is handled exactly
    as a call with an empty one, by both dispatchers and for every tool
    name: every field is read as undefined. *)
Theorem no_arguments_is_empty_arguments
    (client : MakeClient) (name : string) (w : Remote) :
  Index.call_tool client name None w = Index.call_tool client name (Some ∅) w
  /\ ApiMcp.call_tool client name None w = ApiMcp.call_tool client name (Some ∅) w.
Proof.
  unfold Index.call_tool, Index.call_tool_switch,
    ApiMcp.call_tool, ApiMcp.call_tool_switch.
  rewrite !arg_empty. split; reflexivity.
Qed.

Lemma arg_insert_ne (bag : gmap string json) (k key : string) (v : json) :
  k <> key -> arg (Some (<[k:=v]> bag)) key = arg (Some bag) key.
Proof. intros Hne. unfold arg; simpl. now apply lookup_insert_ne. Qed.

Ltac other_field Hk := intros ->; apply Hk; simpl; tauto.

(** X8. The handler of a tool of the stdio server reads no field that the
    tool's input schema does not declare: adding such a field to the
    arguments, with any value, changes neither the request nor the
    result. *)
Theorem undeclared_fields_are_ignored
    (client : MakeClient) (t : Tool) (k : string) (v : json)
    (bag : gmap string json) (w : Remote) :
  In t Index.tools ->
  ~ In k (map prop_name (properties t)) ->
  Index.call_tool client (tool_name t) (Some (<[k:=v]> bag)) w
  = Index.call_tool client (tool_name t) (Some bag) w.
Proof.
  intros Ht Hk. unfold Index.tools in Ht. simpl in Ht.
  repeat (destruct Ht as [<-|Ht];
          [ unfold Index.call_tool, Index.call_tool_switch;
            cbn [tool_name String.eqb Ascii.eqb Bool.eqb];
            cbn [properties map prop_name num str obj boolean] in Hk;
            rewrite ?(arg_insert_ne bag k) by other_field Hk;
            reflexivity |]).
  contradiction.
Qed.

Lemma undeclared_fields_are_ignored_witness :
  Index.call_tool sample_client "get_scenario"
    (Some (<["verbose" := JBool true]> {[ "scenarioId" := JNum (Int 999 I) ]}))
    (always scenario_not_found)
  = Index.call_tool sample_client "get_scenario" get_999 (always scenario_not_found).
Proof.
  apply (undeclared_fields_are_ignored sample_client
           {| tool_name := "get_scenario";
              tool_description := "Get details of a specific scenario";
              properties := [ num "scenarioId" "Scenario ID" ];
              required := Some ["scenarioId"] |}
           "verbose" (JBool true) {[ "scenarioId" := JNum (Int 999 I) ]}
           (always scenario_not_found)).
  - right; left; reflexivity.
  - simpl. intuition discriminate.
Defined.

(** X9. create_scenario declares a name field in its input schema, but its
    handler never reads it: whatever name the caller gives, the request
    and the result are those of the call without it. *)
Theorem create_scenario_drops_the_name
    (client : MakeClient) (v : json) (bag : gmap string json) (w : Remote) :
  In "name" (map prop_name
               (flat_map properties
                  (List.filter (fun t => String.eqb (tool_name t) "create_scenario")
                     Index.tools)))
  /\ Index.call_tool client "create_scenario" (Some (<["name" := v]> bag)) w
     = Index.call_tool client "create_scenario" (Some bag) w.
Proof.
  split; [simpl; tauto|].
  unfold Index.call_tool, Index.call_tool_switch.
  cbn [String.eqb Ascii.eqb Bool.eqb].
  rewrite !(arg_insert_ne bag "name") by discriminate.
  reflexivity.
Qed.

(** X10. A path parameter is put into the URL as it is, without escaping,
    and the argument types are not checked: for an identifier that can be
    converted to a string, get_scenario called with the string made of
    the identifier's text followed by /blueprint issues the very request
    of get_scenario_blueprint on that identifier, and returns the same
    result. *)
Theorem path_parameters_are_not_escaped
    (client : MakeClient) (scenarioId : json) (w : Remote) :
  converts scenarioId = true ->
  Index.call_tool client "get_scenario"
    (Some {[ "scenarioId" := JStr (text_of scenarioId +:+ "/blueprint") ]}) w
  = Index.call_tool client "get_scenario_blueprint"
      (Some {[ "scenarioId" := scenarioId ]}) w.
Proof.
  intros Hconv. unfold Index.call_tool, Index.call_tool_switch.
  cbn [String.eqb Ascii.eqb Bool.eqb].
  unfold arg; simpl. rewrite !lookup_singleton_eq.
  unfold getScenario, getScenarioBlueprint, String_, ToString.
  rewrite Hconv. reflexivity.
Qed.

Lemma path_parameters_are_not_escaped_witness :
  Index.call_tool sample_client "get_scenario"
    (Some {[ "scenarioId" := JStr "42/blueprint" ]}) (always (ok_with run_outcome))
  = Index.call_tool sample_client "get_scenario_blueprint"
      (Some {[ "scenarioId" := JNum (Int 42 I) ]}) (always (ok_with run_outcome)).
Proof.
  exact (path_parameters_are_not_escaped sample_client (JNum (Int 42 I))
           (always (ok_with run_outcome)) eq_refl).
Defined.

(** What the stdio server returns when the remote answers the request of
    a tool with a non-2xx status. *)
Lemma Index_api_error_text (client : MakeClient) (name : string)
    (args : Arguments_bag) (w : Remote) (resp : Response) :
  (forall req, w req = Responded resp) ->
  res_ok resp = false ->
  In name (map tool_name Index.tools) ->
  (Index.call_tool client name args w).1 <> [] ->
  (Index.call_tool client name args w).2
  = if truthy (error_detail resp) && negb (converts_opt (error_detail resp))
    then Rejected (TypeError cannot_convert)
    else Fulfilled
           (error_result
              ("Make API Error: "
                 +:+ api_error_message (res_status resp) (res_statusText resp)
                       (error_detail resp))).
Proof.
  intros Hw Hok Hin.
  destruct (Index_call_tool_run client name args Hin)
    as (method & url & body & Hrun & _ & _ & _).
  rewrite Hrun. cbn [settle_index fst snd]. intros Hissued.
  destruct (send_issued _ _ _ _ _ Hissued) as (u & _ & ->).
  cbn [snd]. rewrite Hw, (answer_not_ok _ Hok).
  now destruct (truthy (error_detail resp) && negb (converts_opt (error_detail resp))).
Qed.

(** X11. When the error body's message is a JSON object rather than a
    string, the stdio server still takes it as the detail. If the object
    has no property named toString, the text of the result shows it as
    [object Object]: the content of the remote message is lost. If it has
    one, the constructor of the error throws a TypeError, which the
    handler lets through: no error result is returned at all. *)
Theorem object_message_is_lost
    (client : MakeClient) (name : string) (args : Arguments_bag) (w : Remote)
    (resp : Response) (props inner : list (string * json)) :
  (forall req, w req = Responded resp) ->
  res_ok resp = false ->
  In name (map tool_name Index.tools) ->
  res_json resp = Json (JObj props) ->
  lookup_prop "message" props = Some (JObj inner) ->
  (Index.call_tool client name args w).1 <> [] ->
  (lookup_prop "toString" inner = None ->
   (Index.call_tool client name args w).2
   = Fulfilled
       {| content :=
            [ {| type := "text";
                 text := "Make API Error: Make API Error " +:+ pretty (res_status resp)
                           +:+ ": " +:+ res_statusText resp +:+ " - [object Object]" |} ];
          isError := Some true |})
  /\ (lookup_prop "toString" inner <> None ->
      exists msg, (Index.call_tool client name args w).2 = Rejected (TypeError msg)).
Proof.
  intros Hw Hok Hin Hbody Hmessage Hissued.
  rewrite (Index_api_error_text client name args w resp Hw Hok Hin Hissued).
  rewrite (error_detail_message resp props (JObj inner) Hbody Hmessage eq_refl).
  cbn [truthy truthy_json converts_opt converts andb]. split.
  - intros ->. reflexivity.
  - intros Hown. destruct (lookup_prop "toString" inner); [|congruence].
    now exists cannot_convert.
Qed.

Lemma object_message_is_lost_witness :
  (Index.call_tool sample_client "get_scenario" get_999 (always structured_error)).2
  = Fulfilled
      (error_result
         "Make API Error: Make API Error 422: Unprocessable Entity - [object Object]").
Proof.
  apply (object_message_is_lost sample_client "get_scenario" get_999
           (always structured_error) structured_error
           [("message", JObj [("code", JStr "IM007")])] [("code", JStr "IM007")]
           (fun _ => eq_refl) eq_refl);
    [simpl; tauto | reflexivity | reflexivity | discriminate | reflexivity].
Defined.

(** X12. When the remote answers the request of a tool with a non-2xx
    status and a body that is not JSON, the text of the stdio server's
    result is exactly the prefix Make API Error, twice (once from the
    handler, once from the error's own message), followed by the status
    code and the status text, with nothing after them. *)
Theorem error_text_without_detail
    (client : MakeClient) (name : string) (args : Arguments_bag) (w : Remote)
    (resp : Response) (msg : string) :
  (forall req, w req = Responded resp) ->
  res_ok resp = false ->
  In name (map tool_name Index.tools) ->
  res_json resp = NotJson msg ->
  (Index.call_tool client name args w).1 <> [] ->
  (Index.call_tool client name args w).2
  = Fulfilled
      {| content :=
           [ {| type := "text";
                text := "Make API Error: Make API Error " +:+ pretty (res_status resp)
                          +:+ ": " +:+ res_statusText resp |} ];
         isError := Some true |}.
Proof.
  intros Hw Hok Hin Hbody Hissued.
  rewrite (Index_api_error_text client name args w resp Hw Hok Hin Hissued).
  rewrite (error_detail_not_json resp msg Hbody).
  unfold api_error_message. cbn [truthy andb]. now rewrite append_nil_r.
Qed.

Lemma error_text_without_detail_witness :
  (Index.call_tool sample_client "get_scenario" get_999 (always bad_gateway)).2
  = Fulfilled (error_result "Make API Error: Make API Error 502: Bad Gateway").
Proof.
  apply (error_text_without_detail sample_client "get_scenario" get_999
           (always bad_gateway) bad_gateway "Unexpected token '<'"
           (fun _ => eq_refl) eq_refl);
    [simpl; tauto | reflexivity | discriminate].
Defined.

(** X13. deleteDataStoreRecord issues one DELETE, without body or query
    string, on the record's path. On a 2xx response it resolves to nothing
    whatever JSON the body holds, and it rejects with a SyntaxError when
    the body is not JSON (an empty body, say), although the remote has
    accepted the deletion. *)
Theorem deleteDataStoreRecord_needs_a_json_body
    (this : MakeClient) (dataStoreId : number) (recordKey : string) (w : Remote)
    (resp : Response) :
  (forall req, w req = Responded resp) ->
  res_ok resp = true ->
  (deleteDataStoreRecord this dataStoreId recordKey w).1
  = [ {| req_url := baseUrl this +:+ "/data-stores/" +:+ num_text dataStoreId
                      +:+ "/data/" +:+ recordKey;
         req_method := "DELETE";
         req_headers := headers this;
         req_body := None |} ]
  /\ (forall v, res_json resp = Json v ->
        (deleteDataStoreRecord this dataStoreId recordKey w).2 = Fulfilled tt)
  /\ (forall parse_error, res_json resp = NotJson parse_error ->
      exists msg,
        (deleteDataStoreRecord this dataStoreId recordKey w).2
        = Rejected (SyntaxError msg)).
Proof.
  intros Hw Hok. unfold deleteDataStoreRecord.
  rewrite (bind_ret_run _ (fun _ => tt)), request_run, send_run.
  cbn [build_url fst snd]. rewrite Hw, (answer_ok _ Hok). unfold response_json.
  split; [reflexivity|]. split.
  - intros v ->. reflexivity.
  - intros parse_error ->. now exists parse_error.
Qed.

Lemma deleteDataStoreRecord_needs_a_json_body_witness :
  exists msg,
    (deleteDataStoreRecord sample_client (Int 7 I) "k1" (always no_content)).2
    = Rejected (SyntaxError msg).
Proof.
  destruct (deleteDataStoreRecord_needs_a_json_body sample_client (Int 7 I)
              "k1" (always no_content) no_content
              (fun _ => eq_refl) eq_refl) as (_ & _ & Hrejected).
  apply (Hrejected "Unexpected end of JSON input"). reflexivity.
Defined.

(** ** Further properties: the three registrations side by side *)

(** X14. The zod registrations and the switch of the stdio server make the
    same client call for each of the twenty-one tools: on the same
    arguments object a callback and the switch issue the same request and
    settle the same way. *)
Theorem zod_callbacks_agree_with_the_switch
    (client : MakeClient) (r : Registration) (args : gmap string json) (w : Remote) :
  In r ApiMcpZod.registrations ->
  reg_callback r client args w
  = Index.call_tool_switch client (reg_name r) (Some args) w.
Proof.
  intros Hr. unfold ApiMcpZod.registrations in Hr. simpl in Hr.
  repeat (destruct Hr as [<-|Hr]; [reflexivity|]).
  contradiction.
Qed.

Lemma zod_callbacks_agree_with_the_switch_witness :
  reg_callback
    {| reg_name := "get_current_user";
       reg_description := "Get information about the authenticated user";
       reg_shape := [];
       reg_callback := fun client args =>
         result <- getCurrentUser client ;;;
         ret (text_result result) |}
    sample_client ∅ unreachable
  = Index.call_tool_switch sample_client "get_current_user" (Some ∅) unreachable.
Proof.
  apply (zod_callbacks_agree_with_the_switch sample_client
           {| reg_name := "get_current_user";
              reg_description := "Get information about the authenticated user";
              reg_shape := [];
              reg_callback := fun client args =>
                result <- getCurrentUser client ;;;
                ret (text_result result) |}
           ∅ unreachable).
  unfold ApiMcpZod.registrations. do 20 right. left. reflexivity.
Defined.

(** X15. The two full catalogs do not drift on names or on required
    fields: the zod registrations name the same tools in the same order
    as the catalog of the stdio server, the fields a shape does not mark
    optional are the fields the catalog declares required, and the two
    tools of the small hosted catalog are tools of the full one with the
    same required fields. *)
Theorem catalogs_agree_on_required_fields :
  map reg_name ApiMcpZod.registrations = map tool_name Index.tools
  /\ map (fun r => shape_required (reg_shape r)) ApiMcpZod.registrations
     = map (fun t => default [] (required t)) Index.tools
  /\ Forall (fun t =>
               In (tool_name t) (map tool_name Index.tools)
               /\ default [] (required t)
                  = required_fields Index.tools (tool_name t))
            ApiMcp.tools.
Proof.
  split; [reflexivity|]. split; [reflexivity|].
  unfold ApiMcp.tools.
  repeat (apply List.Forall_cons; [split; [simpl; tauto | reflexivity]|]).
  apply List.Forall_nil.
Qed.

(** The two handlers of run_scenario as one client call each. *)
Lemma run_scenario_traces (client : MakeClient) (args : Arguments_bag) (w : Remote) :
  let url :=
    and_then (String_ (arg args "scenarioId"))
      (fun id => build_url client ("/scenarios/" +:+ id +:+ "/run") None) in
  (ApiMcp.call_tool client "run_scenario" args w).1
  = (send client "POST" url None w).1
  /\ (Index.call_tool client "run_scenario" args w).1
     = (send client "POST" url
          (Some (object_literal [("data", arg args "data");
                                 ("responsive", arg args "responsive")])) w).1.
Proof.
  cbv zeta. rewrite Index_call_tool_trace, ApiMcp_call_tool_trace.
  unfold Index.call_tool_switch, ApiMcp.call_tool_switch.
  cbn [String.eqb Ascii.eqb Bool.eqb].
  rewrite !bind_ret_run. cbn [fst]. unfold runScenario. now rewrite !via_id.
Qed.

(** X16. The two handlers of run_scenario differ: the hosted one calls the
    client without parameters, so a request it issues never has a body and
    the data and responsive arguments are dropped, while a request of the
    stdio one always carries a JSON object made of those two arguments
    (an empty object when both are absent). Both go to the same URL, and
    each handler issues exactly one request when the scenario identifier
    can be converted to a string, none when it cannot. *)
Theorem hosted_run_scenario_sends_no_body
    (client : MakeClient) (args : Arguments_bag) (w : Remote) :
  (forall req,
     In req (ApiMcp.call_tool client "run_scenario" args w).1 -> req_body req = None)
  /\ (forall req,
        In req (Index.call_tool client "run_scenario" args w).1 ->
        req_body req
        = Some (JSON_stringify (object_literal [("data", arg args "data");
                                                ("responsive", arg args "responsive")])))
  /\ map req_url (ApiMcp.call_tool client "run_scenario" args w).1
     = map req_url (Index.call_tool client "run_scenario" args w).1
  /\ JSON_stringify (object_literal [("data", None); ("responsive", None)]) = "{}"
  /\ (converts_opt (arg args "scenarioId") = true ->
      map req_body (ApiMcp.call_tool client "run_scenario" args w).1 = [ None ]
      /\ map req_body (Index.call_tool client "run_scenario" args w).1
         = [ Some (JSON_stringify (object_literal [("data", arg args "data");
                                                  ("responsive", arg args "responsive")])) ])
  /\ (converts_opt (arg args "scenarioId") = false ->
      (ApiMcp.call_tool client "run_scenario" args w).1 = []
      /\ (Index.call_tool client "run_scenario" args w).1 = []).
Proof.
  destruct (run_scenario_traces client args w) as [-> ->].
  split; [|split; [|split; [|split; [|split]]]].
  - intros req (u & _ & ->)%send_trace. reflexivity.
  - intros req (u & _ & ->)%send_trace. reflexivity.
  - rewrite !send_run. now destruct (and_then _ _).
  - reflexivity.
  - intros Hconv. rewrite !send_run, String__spec, Hconv. split; reflexivity.
  - intros Hconv. rewrite !send_run, String__spec, Hconv. split; reflexivity.
Qed.

(** X17. A request of one of the five tools of the stdio server that build
    their request body from the arguments (create_scenario,
    update_scenario, run_scenario, clone_scenario, create_data_store)
    always carries a JSON object, even when every argument is absent; a
    request of create_data_store_record carries the data argument itself,
    and no body at all when it is absent or falsy. Each of the six issues
    exactly one request when every argument can be converted to a
    string. *)
Theorem request_bodies_of_mutating_tools
    (client : MakeClient) (name : string) (args : Arguments_bag) (w : Remote) :
  (In name ["create_scenario"; "update_scenario"; "run_scenario";
            "clone_scenario"; "create_data_store"] ->
   exists props,
     forall req,
       In req (Index.call_tool client name args w).1 ->
       req_body req = Some (JSON_stringify (JObj props)))
  /\ (forall req,
        In req (Index.call_tool client "create_data_store_record" args w).1 ->
        req_body req
        = if truthy (arg args "data") then JSON_stringify <$> arg args "data"
          else None)
  /\ (In name ["create_scenario"; "update_scenario"; "run_scenario";
               "clone_scenario"; "create_data_store"; "create_data_store_record"] ->
      all_args_convert args ->
      length (Index.call_tool client name args w).1 = 1%nat).
Proof.
  split; [|split].
  - intros Hname. simpl in Hname.
    repeat (destruct Hname as [<-|Hname];
            [ eexists; intros req Hreq; rewrite Index_call_tool_trace in Hreq;
              run_switch Hreq; destruct Hreq as (u & _ & ->); reflexivity |]).
    contradiction.
  - intros req Hreq. rewrite Index_call_tool_trace in Hreq.
    run_switch Hreq. destruct Hreq as (u & _ & ->). reflexivity.
  - intros Hname Hconv.
    assert (In name (map tool_name Index.tools)) as Hin.
    { simpl in Hname. repeat (destruct Hname as [<-|Hname]; [in_catalog|]).
      contradiction. }
    destruct (Index_call_tool_run client name args Hin)
      as (method & url & body & Hrun & _ & _ & Hurl).
    destruct (Hurl Hconv) as [u ->]. rewrite Hrun, send_run. reflexivity.
Qed.

Lemma request_bodies_of_mutating_tools_witness :
  length (Index.call_tool sample_client "update_scenario" run_42 unreachable).1 = 1%nat.
Proof.
  destruct (request_bodies_of_mutating_tools sample_client "update_scenario" run_42
              unreachable) as (_ & _ & Hone).
  apply Hone; [simpl; tauto|].
  intros key. unfold arg, run_42; simpl.
  destruct (String.eqb_spec key "scenarioId") as [->|Hne].
  - now rewrite lookup_singleton_eq.
  - now rewrite lookup_singleton_ne.
Defined.

(** X18. In both catalogs every tool name occurs once, and every field a
    tool declares required is one of its declared properties. *)
Theorem catalogs_are_well_formed :
  List.NoDup (map tool_name Index.tools)
  /\ List.NoDup (map tool_name ApiMcp.tools)
  /\ Forall (fun t => incl (default [] (required t))
                            (map prop_name (properties t)))
            (Index.tools ++ ApiMcp.tools).
Proof.
  split; [|split].
  - distinct_keys.
  - distinct_keys.
  - unfold Index.tools, ApiMcp.tools. simpl app.
    repeat (apply List.Forall_cons; [intros field; simpl; tauto|]).
    apply List.Forall_nil.
Qed.

(** ** Further properties: what a call depends on *)

(** A client call issues at most one request, the same whatever the
    remote, and settles on the answer to it alone. *)
Lemma send_local (this : MakeClient) (method : string) (url : Outcome string)
    (body : jsval) (w1 w2 : Remote) :
  (length (send this method url body w1).1 <= 1)%nat
  /\ (send this method url body w1).1 = (send this method url body w2).1
  /\ ((forall req, In req (send this method url body w1).1 -> w1 req = w2 req) ->
      send this method url body w1 = send this method url body w2).
Proof.
  rewrite !send_run. destruct url as [u|e]; cbn [fst snd length].
  - split; [lia|]. split; [reflexivity|].
    intros Hsame. now rewrite (Hsame _ (or_introl eq_refl)).
  - split; [lia|]. split; reflexivity.
Qed.

(** X19. A call is one exchange and nothing else, for both dispatchers:
    it issues at most one request (exactly one for a tool of the catalog
    whose arguments can all be converted to a string), the request does
    not depend on what the remote answers, and if two remotes give the
    same answer to it the call returns the same result. Nothing is
    retried and no second request follows the first answer. *)
Theorem call_depends_on_one_answer
    (client : MakeClient) (name : string) (args : Arguments_bag) (w1 w2 : Remote) :
  ((length (Index.call_tool client name args w1).1 <= 1)%nat
   /\ (Index.call_tool client name args w1).1 = (Index.call_tool client name args w2).1
   /\ ((forall req, In req (Index.call_tool client name args w1).1 -> w1 req = w2 req) ->
       Index.call_tool client name args w1 = Index.call_tool client name args w2)
   /\ (In name (map tool_name Index.tools) -> all_args_convert args ->
       length (Index.call_tool client name args w1).1 = 1%nat))
  /\ ((length (ApiMcp.call_tool client name args w1).1 <= 1)%nat
      /\ (ApiMcp.call_tool client name args w1).1
         = (ApiMcp.call_tool client name args w2).1
      /\ ((forall req, In req (ApiMcp.call_tool client name args w1).1 ->
                       w1 req = w2 req) ->
          ApiMcp.call_tool client name args w1 = ApiMcp.call_tool client name args w2)
      /\ (In name (map tool_name ApiMcp.tools) -> all_args_convert args ->
          length (ApiMcp.call_tool client name args w1).1 = 1%nat)).
Proof.
  split.
  - destruct (Index_switch_shape client name args) as [[Hin _]|[Hout Hshape]].
    + destruct (Index_call_tool_run client name args Hin)
        as (method & url & body & Hrun & _ & _ & Hurl).
      rewrite !Hrun. cbn [settle_index fst].
      destruct (send_local client method url body w1 w2) as (Hone & Hsame & Hlocal).
      split; [exact Hone|]. split; [exact Hsame|]. split.
      * intros Hanswer. now rewrite (Hlocal Hanswer).
      * intros _ Hconv. destruct (Hurl Hconv) as [u ->]. now rewrite send_run.
    + unfold Index.call_tool, try_catch. rewrite Hshape. unfold ret. cbn [fst length].
      split; [lia|]. split; [reflexivity|]. split; [reflexivity|].
      intros Hin. contradiction.
  - destruct (ApiMcp_switch_shape client name args) as [[Hin _]|[Hout Hshape]].
    + destruct (ApiMcp_call_tool_run client name args Hin)
        as (method & url & body & Hrun & _ & _ & Hurl).
      rewrite !Hrun. cbn [settle_hosted fst].
      destruct (send_local client method url body w1 w2) as (Hone & Hsame & Hlocal).
      split; [exact Hone|]. split; [exact Hsame|]. split.
      * intros Hanswer. now rewrite (Hlocal Hanswer).
      * intros _ Hconv. destruct (Hurl Hconv) as [u ->]. now rewrite send_run.
    + unfold ApiMcp.call_tool, try_catch. rewrite Hshape. unfold ret. cbn [fst length].
      split; [lia|]. split; [reflexivity|]. split; [reflexivity|].
      intros Hin. contradiction.
Qed.

Lemma call_depends_on_one_answer_witness :
  Index.call_tool sample_client "get_scenario" get_999 only_scenario_999
  = Index.call_tool sample_client "get_scenario" get_999 (always scenario_not_found).
Proof.
  destruct (call_depends_on_one_answer sample_client "get_scenario" get_999
              only_scenario_999 (always scenario_not_found)) as ((_ & _ & Hlocal & _) & _).
  apply Hlocal. intros req [<-|[]]. reflexivity.
Defined.

(** ** Further properties: the request body is one printable line *)

Lemma string_forall_concat (p : ascii -> bool) (sep : string) (l : list string) :
  string_forall p sep = true ->
  Forall (fun s => string_forall p s = true) l ->
  string_forall p (String.concat sep l) = true.
Proof.
  intros Hsep Hl. induction Hl as [|s l Hs Hl IH]; [reflexivity|].
  destruct l as [|s' l]; [exact Hs|].
  change (string_forall p (s +:+ sep +:+ String.concat sep (s' :: l)) = true).
  now rewrite !string_forall_app, Hs, Hsep, IH.
Qed.

Lemma number_char_printable (c : ascii) : number_char c = true -> printable c = true.
Proof.
  destruct c as [[] [] [] [] [] [] [] []]; vm_compute; intros H;
    first [reflexivity | exact H].
Qed.

Lemma num_text_printable (n : number) : string_forall printable (num_text n) = true.
Proof.
  pose proof (num_text_chars n) as H. induction (num_text n) as [|c s IH]; [reflexivity|].
  simpl in *. apply andb_true_iff in H as [Hc Hs].
  now rewrite (number_char_printable c Hc), IH.
Qed.

Lemma QuoteJSONString_printable (s : string) :
  string_forall printable (QuoteJSONString s) = true.
Proof.
  unfold QuoteJSONString. rewrite !string_forall_app.
  pose proof (quote_body_printable s) as H. unfold printable. now rewrite H.
Qed.

Lemma compact_json_printable :
  forall (v : json) (indent : string),
    string_forall printable (SerializeJSON "" indent v) = true.
Proof.
  fix IH 1. intros [|[]|n|s|items|props] indent; try reflexivity.
  - cbn [SerializeJSON]. destruct (num_finite n); [apply num_text_printable | reflexivity].
  - apply QuoteJSONString_printable.
  - assert (Forall (fun s => string_forall printable s = true)
              (map (SerializeJSON "" (indent +:+ "")) items)) as Hitems.
    { induction items as [|x items IHitems]; constructor; [apply IH | exact IHitems]. }
    change (string_forall printable
              match map (SerializeJSON "" (indent +:+ "")) items with
              | [] => "[" +:+ "]"
              | _ => "[" +:+ String.concat ","
                               (map (SerializeJSON "" (indent +:+ "")) items) +:+ "]"
              end = true).
    destruct (map _ items); [reflexivity|].
    rewrite !string_forall_app, string_forall_concat; [reflexivity | reflexivity | exact Hitems].
  - pose (entry := fun kv : string * json =>
                     QuoteJSONString kv.1 +:+ ":" +:+ SerializeJSON "" (indent +:+ "") kv.2).
    assert (Forall (fun s => string_forall printable s = true) (map entry props)) as Hprops.
    { induction props as [|[k x] props IHprops]; constructor; [|exact IHprops].
      unfold entry; simpl fst; simpl snd.
      rewrite !string_forall_app, IH.
      now rewrite QuoteJSONString_printable. }
    change (string_forall printable
              match map (fun kv => match kv with
                                   | (k, x) =>
                                       QuoteJSONString k +:+ ":"
                                         +:+ SerializeJSON "" (indent +:+ "") x
                                   end) props with
              | [] => "{" +:+ "}"
              | _ => "{" +:+ String.concat ","
                               (map (fun kv => match kv with
                                               | (k, x) =>
                                                   QuoteJSONString k +:+ ":"
                                                     +:+ SerializeJSON "" (indent +:+ "") x
                                               end) props) +:+ "}"
              end = true).
    replace (map (fun kv => match kv with
                            | (k, x) =>
                                QuoteJSONString k +:+ ":"
                                  +:+ SerializeJSON "" (indent +:+ "") x
                            end) props)
      with (map entry props)
      by (apply map_ext; intros [k x]; reflexivity).
    destruct (map entry props); [reflexivity|].
    rewrite !string_forall_app, string_forall_concat; [reflexivity | reflexivity | exact Hprops].
Qed.

(** X20. The body of every request is a single printable line: whatever
    JSON value the arguments hold, however deeply nested and whatever
    control characters its strings contain, the serialized body has no
    byte below 32, so no line feed and no carriage return. This holds for
    the generic request operation and for both dispatchers. *)
Theorem request_body_is_one_line
    (client : MakeClient) (method path name : string) (body : jsval)
    (queryParams : option QueryParams) (args : Arguments_bag) (w : Remote)
    (req : Request) (sent : string) :
  In req (request client method path body queryParams w).1
  \/ In req (Index.call_tool client name args w).1
  \/ In req (ApiMcp.call_tool client name args w).1 ->
  req_body req = Some sent ->
  string_forall printable sent = true
  /\ count_byte "010" sent = 0%nat
  /\ count_byte "013" sent = 0%nat.
Proof.
  intros Hreq Hsent.
  assert (string_forall printable sent = true) as Hprintable.
  { assert (exists m u b, req = the_request client m u b) as (m & u & b & ->).
    { destruct Hreq as [Hreq|[Hreq|Hreq]].
      - rewrite request_run in Hreq. apply send_trace in Hreq as (u & _ & ->). eauto.
      - rewrite Index_call_tool_trace in Hreq.
        destruct (Index_switch_shape client name args)
          as [[_ (m & url & b & Hshape & _ & _)]|[_ Hshape]];
          rewrite Hshape in Hreq; [|contradiction].
        rewrite bind_ret_run in Hreq. cbn [fst] in Hreq.
        apply send_trace in Hreq as (u & _ & ->). eauto.
      - rewrite ApiMcp_call_tool_trace in Hreq.
        destruct (ApiMcp_switch_shape client name args)
          as [[_ (m & url & b & Hshape & _ & _)]|[_ Hshape]];
          rewrite Hshape in Hreq; [|contradiction].
        rewrite bind_ret_run in Hreq. cbn [fst] in Hreq.
        apply send_trace in Hreq as (u & _ & ->). eauto. }
    simpl in Hsent. destruct (truthy b); [|discriminate].
    destruct b as [v|]; [|discriminate].
    injection Hsent as <-. apply compact_json_printable. }
  split; [exact Hprintable|].
  split; apply (forall_excludes_byte printable); solve [reflexivity | exact Hprintable].
Qed.

Lemma request_body_is_one_line_witness :
  let data := JObj [("note", JStr ("line one" +:+ LF +:+ "line two"))] in
  let sent := "{" +:+ DQUOTE +:+ "note" +:+ DQUOTE +:+ ":"
                +:+ DQUOTE +:+ "line one\nline two" +:+ DQUOTE +:+ "}" in
  map req_body
    (Index.call_tool sample_client "create_data_store_record"
       (Some {[ "dataStoreId" := JNum (Int 7 I); "data" := data ]}) unreachable).1
  = [ Some sent ]
  /\ string_forall printable sent = true
  /\ count_byte "010" sent = 0%nat.
Proof.
  assert (map req_body
            (Index.call_tool sample_client "create_data_store_record"
               (Some {[ "dataStoreId" := JNum (Int 7 I);
                        "data" := JObj [("note", JStr ("line one" +:+ LF +:+ "line two"))] ]})
               unreachable).1
          = [ Some ("{" +:+ DQUOTE +:+ "note" +:+ DQUOTE +:+ ":"
                      +:+ DQUOTE +:+ "line one\nline two" +:+ DQUOTE +:+ "}") ]) as Hbody.
  { vm_compute. reflexivity. }
  split; [exact Hbody|].
  destruct (Index.call_tool sample_client "create_data_store_record"
              (Some {[ "dataStoreId" := JNum (Int 7 I);
                       "data" := JObj [("note", JStr ("line one" +:+ LF +:+ "line two"))] ]})
              unreachable).1 as [|req [|]] eqn:Htrace; try discriminate Hbody.
  injection Hbody as Hbody.
  destruct (request_body_is_one_line sample_client "GET" "/" "create_data_store_record"
              None None
              (Some {[ "dataStoreId" := JNum (Int 7 I);
                       "data" := JObj [("note", JStr ("line one" +:+ LF +:+ "line two"))] ]})
              unreachable req _
              ltac:(right; left; rewrite Htrace; left; reflexivity) Hbody)
    as (Hprintable & Hlf & _).
  split; assumption.
Defined.
